(** * API log analytics: a shallow embedding of [utils.py], [config.py] and
    [function.py], and the properties of the report they compute.

    Modelling conventions.

    - A Python [int] is a [Z].  A Python [float] is the rational number it
      denotes ([Q], always kept in lowest terms so that equal numbers are
      equal terms); the binary64 representation error of [/], [*] and [+],
      float overflow, infinities and NaN are outside this part of the model,
      and so is the [OverflowError] of [float(n)] on an [int] beyond the
      range of binary64.  Comparisons between numbers are exact in Python
      and exact here.  [round(x, n)] rounds the rational to [n] decimals,
      ties to even.  The statements below say of a float only what rounding
      cannot change; where rounding decides, [Binary64] computes as the
      interpreter does, on the binary64 numbers themselves.
    - An aware UTC [datetime] is the instant it denotes, in microseconds
      since the epoch; a [timedelta] is a number of microseconds.  The
      pipeline's window loop is modelled on all of [Z]; [Bounded] is the
      same loop with the ranges of [datetime] and [timedelta], outside of
      which Python raises [OverflowError].  Where the report renders an
      instant with [isoformat()], the model keeps the instant.
    - A [dict] that is iterated ([defaultdict], [Counter], the aggregator's
      [stats]) is an association list with distinct keys in insertion order.
      A raw record, which is only looked up, is a [gmap].
    - Exceptions are values of [exn]; a function that can raise returns an
      [outcome].  The text of the recommendations is kept as structured
      data. *)

From Stdlib Require Import ZArith QArith Qround Qabs Lia Lqa.
From Stdlib Require Import Floats.SpecFloat.
From Stdlib Require Import Sorting.Sorted Permutation.
From Stdlib Require Import Ascii String DecimalString.
From stdpp Require Import base option list sorting gmap strings.

Local Open Scope Z_scope.

(** ** Exceptions *)

Inductive exn : Set :=
  | IndexError
  | ValueError
  | ZeroDivisionError
  | OverflowError
  | Exhausted.  (* the model's loop budget ran out; never a Python exception *)

Inductive outcome (A : Type) : Type :=
  | Ok (a : A)
  | Raise (e : exn).
Arguments Ok {A} a.
Arguments Raise {A} e.

Global Instance outcome_ret : MRet outcome := fun _ a => Ok a.
Global Instance outcome_bind : MBind outcome := fun _ _ k m =>
  match m with
  | Ok a => k a
  | Raise e => Raise e
  end.

(** [for x in xs: out.extend(body(x))], stopping at the first exception. *)
Fixpoint for_extend {A B} (body : A -> outcome (list B)) (xs : list A)
  : outcome (list B) :=
  match xs with
  | [] => Ok []
  | x :: xs' =>
      ys ← body x;
      rest ← for_extend body xs';
      Ok (ys ++ rest)
  end.

(** [[body(x) for x in xs]]. *)
Fixpoint for_each {A B} (body : A -> outcome B) (xs : list A)
  : outcome (list B) :=
  match xs with
  | [] => Ok []
  | x :: xs' =>
      y ← body x;
      rest ← for_each body xs';
      Ok (y :: rest)
  end.

(** ** Numbers *)

Definition py_float (z : Z) : Q := inject_Z z.

Definition py_add (a b : Q) : Q := Qred (a + b).
Definition py_sub (a b : Q) : Q := Qred (a - b).
Definition py_mul (a b : Q) : Q := Qred (a * b).

(** [a / b] (true division). *)
Definition py_div (a b : Q) : outcome Q :=
  if Qeq_bool b 0 then Raise ZeroDivisionError else Ok (Qred (a / b)).

(** [a > b]. *)
Definition py_gt (a b : Q) : bool := negb (Qle_bool a b).

(** [max(a, b)] on numbers: [a] unless [b > a]. *)
Definition py_max2 (a b : Q) : Q := if py_gt b a then b else a.

(** [int(x)]: truncation towards zero. *)
Definition py_int_of_float (x : Q) : Z := Z.quot (Qnum x) (Z.pos (Qden x)).

(** The integer nearest to [x], ties to the even one. *)
Definition round_half_even (x : Q) : Z :=
  let f := Qfloor x in
  match Qcompare (x - inject_Z f) (1 # 2) with
  | Lt => f
  | Gt => f + 1
  | Eq => if Z.even f then f else f + 1
  end.

(** [round(x, ndigits)]. *)
Definition py_round (x : Q) (ndigits : nat) : Q :=
  let scale := inject_Z (10 ^ Z.of_nat ndigits) in
  Qred (inject_Z (round_half_even (x * scale)) / scale).

(** [sum(xs)] of numbers. *)
Definition py_sum (xs : list Q) : Q := fold_left py_add xs 0%Q.

Definition sum_Z (xs : list Z) : Z := fold_left Z.add xs 0.

Definition len {A} (l : list A) : Z := Z.of_nat (length l).

(** [min(xs)] and [max(xs)] on instants or integers. *)
Definition py_min (xs : list Z) : outcome Z :=
  match xs with
  | [] => Raise ValueError
  | x :: xs' => Ok (fold_left Z.min xs' x)
  end.

Definition py_max (xs : list Z) : outcome Z :=
  match xs with
  | [] => Raise ValueError
  | x :: xs' => Ok (fold_left Z.max xs' x)
  end.

(** ** Sorting and insertion-ordered dictionaries *)

Section sorting.
Context {A : Type} (le : A -> A -> bool).

Fixpoint insert_sorted (x : A) (l : list A) : list A :=
  match l with
  | [] => [x]
  | y :: l' => if le x y then x :: y :: l' else y :: insert_sorted x l'
  end.

(** [sorted(l)] / [l.sort()]: a stable sort; [le a b] says that [a] may
    stay in front of [b]. *)
Definition py_sorted (l : list A) : list A := foldr insert_sorted [] l.
End sorting.

Section ordered_dict.
Context {K V : Type} `{EqDecision K}.

(** [d[k] = f(d[k])] on a dictionary whose missing entries read as [d0]
    ([defaultdict], [setdefault], [Counter]): an existing key keeps its
    place, a new key goes last. *)
Fixpoint od_update (k : K) (f : V -> V) (d0 : V) (d : list (K * V))
  : list (K * V) :=
  match d with
  | [] => [(k, f d0)]
  | (k', v) :: d' =>
      if decide (k = k') then (k', f v) :: d'
      else (k', v) :: od_update k f d0 d'
  end.

Fixpoint od_lookup (k : K) (d : list (K * V)) : option V :=
  match d with
  | [] => None
  | (k', v) :: d' => if decide (k = k') then Some v else od_lookup k d'
  end.
End ordered_dict.

(** [Counter(xs)]. *)
Definition Counter {K} `{EqDecision K} (xs : list K) : list (K * Z) :=
  fold_left (fun c k => od_update k Z.succ 0 c) xs [].

(** [counter.most_common(n)]: the [n] largest counts, equal counts in
    insertion order. *)
Definition most_common {K} (n : nat) (counter : list (K * Z)) : list (K * Z) :=
  take n (py_sorted (fun a b => b.2 <=? a.2) counter).

(** ** config.py *)

Record Thresholds : Type := { medium : Q; high : Q; critical : Q }.

Definition SEVERITY_THRESHOLDS_MS : Thresholds :=
  {| medium := 500; high := 1000; critical := 2000 |}.

Definition ERROR_RATE_THRESHOLDS_PERCENT : Thresholds :=
  {| medium := 5; high := 10; critical := 15 |}.

Definition COST_PER_REQUEST_USD : Q := 1 # 10000.
Definition COST_PER_MS_EXECUTION_USD : Q := 2 # 1000000.

(** [(low, high, cost)]; an upper bound of [None] is [float("inf")]. *)
Definition MEMORY_COST_BRACKETS : list (Z * option Z * Q) :=
  [ (0, Some 1024, 1 # 100000);
    (1024, Some (10 * 1024), 5 # 100000);
    (10 * 1024, None, 1 # 10000) ].

Definition REQUEST_SPIKE_WINDOW_MINUTES : Z := 5.
Definition REQUEST_SPIKE_MULTIPLIER : Q := 3.
Definition RESPONSE_DEGRADATION_MULTIPLIER : Q := 2.
Definition ERROR_CLUSTER_WINDOW_MINUTES : Z := 5.
Definition ERROR_CLUSTER_THRESHOLD : Z := 10.
Definition UNUSUAL_USER_SHARE_THRESHOLD : Q := 1 # 2.
Definition DEFAULT_SLOW_ENDPOINT_THRESHOLD_MS : Q := medium SEVERITY_THRESHOLDS_MS.

Definition REQUIRED_FIELDS : list string :=
  [ "timestamp"; "endpoint"; "method"; "response_time_ms"; "status_code";
    "user_id"; "request_size_bytes"; "response_size_bytes" ]%string.

(** ** The host runtime

    What the code obtains from Python itself on an untyped value: the
    built-ins [int] and [str], [isinstance(v, str)], [str.upper] and
    [datetime.fromisoformat(s).astimezone(timezone.utc)].  Each returns
    [None] where Python raises. *)

Class Runtime : Type := {
  pyval : Type;
  as_str : pyval -> option string;
  py_int : pyval -> option Z;
  py_str : pyval -> option string;
  py_upper : string -> string;
  fromisoformat_utc : string -> option Z;
}.

(** ** Data model *)

Record CanonicalRequest : Type := {
  timestamp : Z;
  endpoint : string;
  method : string;
  response_time_ms : Z;
  status_code : Z;
  user_id : string;
  request_size_bytes : Z;
  response_size_bytes : Z;
}.

Inductive Severity : Set := Medium | High | Critical.

(** ** utils.py *)

(** [s.replace(c, new)] for a one-character [c]. *)
Fixpoint str_replace_char (c : Ascii.ascii) (new : string) (s : string) : string :=
  match s with
  | EmptyString => EmptyString
  | String a s' =>
      if Ascii.eqb a c then (new ++ str_replace_char c new s')%string
      else String a (str_replace_char c new s')
  end.

Section utils.
Context `{Runtime}.

Definition parse_timestamp (ts : pyval) : option Z :=
  s ← as_str ts;
  fromisoformat_utc (str_replace_char "Z"%char "+00:00" s).

Definition safe_int (v : pyval) : option Z :=
  iv ← py_int v;
  if 0 <=? iv then Some iv else None.

Definition safe_str (v : pyval) : option string :=
  s ← py_str v;
  if String.eqb s "" then None else Some s.

Definition validate_log_entry (entry : gmap string pyval)
  : option CanonicalRequest :=
  if forallb (fun f => bool_decide (is_Some (entry !! f))) REQUIRED_FIELDS
  then
    ts ← entry !! "timestamp" ≫= parse_timestamp;
    endpoint ← entry !! "endpoint" ≫= safe_str;
    method ← entry !! "method" ≫= safe_str;
    rt ← entry !! "response_time_ms" ≫= safe_int;
    status ← entry !! "status_code" ≫= safe_int;
    user ← entry !! "user_id" ≫= safe_str;
    req_bytes ← entry !! "request_size_bytes" ≫= safe_int;
    resp_bytes ← entry !! "response_size_bytes" ≫= safe_int;
    Some {| timestamp := ts;
            endpoint := endpoint;
            method := py_upper method;
            response_time_ms := rt;
            status_code := status;
            user_id := user;
            request_size_bytes := req_bytes;
            response_size_bytes := resp_bytes |}
  else None.
End utils.

(** The aggregator's per-endpoint accumulator.  [agg_slowest = None] is the
    initial [-math.inf], [agg_fastest = None] the initial [math.inf]. *)
Record EndpointAggregate : Type := {
  agg_count : Z;
  agg_sum_rt : Z;
  agg_slowest : option Z;
  agg_fastest : option Z;
  agg_error_count : Z;
  agg_status_counter : list (Z * Z);
}.

Definition new_aggregate : EndpointAggregate :=
  {| agg_count := 0; agg_sum_rt := 0; agg_slowest := None; agg_fastest := None;
     agg_error_count := 0; agg_status_counter := [] |}.

Definition is_error_status (code : Z) : bool :=
  (400 <=? code) && (code <=? 599).

(** One iteration of the loop of [aggregate_by_endpoint], on the entry [s]
    of the record's endpoint. *)
Definition aggregate_step (log : CanonicalRequest) (s : EndpointAggregate)
  : EndpointAggregate :=
  {| agg_count := agg_count s + 1;
     agg_sum_rt := agg_sum_rt s + response_time_ms log;
     agg_slowest :=
       Some (match agg_slowest s with
             | None => response_time_ms log
             | Some m => Z.max m (response_time_ms log)
             end);
     agg_fastest :=
       Some (match agg_fastest s with
             | None => response_time_ms log
             | Some m => Z.min m (response_time_ms log)
             end);
     agg_error_count :=
       if is_error_status (status_code log) then agg_error_count s + 1
       else agg_error_count s;
     agg_status_counter :=
       od_update (status_code log) Z.succ 0 (agg_status_counter s) |}.

Definition aggregate_by_endpoint (valid_logs : list CanonicalRequest)
  : list (string * EndpointAggregate) :=
  fold_left
    (fun stats log => od_update (endpoint log) (aggregate_step log) new_aggregate stats)
    valid_logs [].

Definition severity_for_response_time (avg_ms : Q) (thresholds : Thresholds)
  : option Severity :=
  if py_gt avg_ms (critical thresholds) then Some Critical
  else if py_gt avg_ms (high thresholds) then Some High
  else if py_gt avg_ms (medium thresholds) then Some Medium
  else None.

Definition severity_for_error_rate (err_rate_percent : Q) (thresholds : Thresholds)
  : option Severity :=
  if py_gt err_rate_percent (critical thresholds) then Some Critical
  else if py_gt err_rate_percent (high thresholds) then Some High
  else if py_gt err_rate_percent (medium thresholds) then Some Medium
  else None.

(** Two decimal digits, as [%02d] and [%H], [%M] print them. *)
Definition digit (d : Z) : Ascii.ascii := Ascii.ascii_of_nat (48 + Z.to_nat d).
Definition two_digits (n : Z) : string :=
  String (digit (n / 10)) (String (digit (n mod 10)) EmptyString).

Definition dt_hour (dt : Z) : Z := (dt / 3600000000) mod 24.
Definition dt_minute (dt : Z) : Z := (dt / 60000000) mod 60.

Definition hourly_bucket (dt : Z) : string :=
  (two_digits (dt_hour dt) ++ ":00")%string.

(** [dt.strftime('%H:%M')]. *)
Definition strftime_HM (dt : Z) : string :=
  (two_digits (dt_hour dt) ++ ":" ++ two_digits (dt_minute dt))%string.

Definition timedelta_minutes (m : Z) : Z := m * 60000000.

(** [timestamps[i]] for [i >= 0]. *)
Definition getitem {A} (l : list A) (i : nat) : outcome A :=
  match l !! i with
  | Some x => Ok x
  | None => Raise IndexError
  end.

(** The inner loop [while timestamps[left] < window_start: left += 1]; it
    returns the final [left]. *)
Fixpoint advance_left (fuel : nat) (timestamps : list Z) (window_start : Z)
    (left : nat) : outcome nat :=
  x ← getitem timestamps left;
  if x <? window_start then
    match fuel with
    | O => Raise Exhausted
    | S fuel' => advance_left fuel' timestamps window_start (S left)
    end
  else Ok left.

(** The body of [for right in range(len(timestamps))]: the new [left] and
    the pair appended to [counts]. *)
Definition window_body (timestamps : list Z) (window_minutes : Z)
    (left right : nat) : outcome (nat * (Z * Z)) :=
  start_time ← getitem timestamps right;
  let window_start := start_time - timedelta_minutes window_minutes in
  left' ← advance_left (length timestamps) timestamps window_start left;
  Ok (left', (start_time, Z.of_nat right - Z.of_nat left' + 1)).

(** The loop itself, from the state [(left, counts)]. *)
Fixpoint window_loop (rights : list nat) (timestamps : list Z)
    (window_minutes : Z) (left : nat) (counts : list (Z * Z))
  : outcome (list (Z * Z)) :=
  match rights with
  | [] => Ok counts
  | r :: rights' =>
      '(left', entry) ← window_body timestamps window_minutes left r;
      window_loop rights' timestamps window_minutes left' (counts ++ [entry])
  end.

Definition sliding_window_counts (timestamps : list Z) (window_minutes : Z)
  : outcome (list (Z * Z)) :=
  window_loop (seq 0 (length timestamps)) timestamps window_minutes 0%nat [].

(** *** The ranges of [datetime] and [timedelta]

    [datetime.min] is 0001-01-01T00:00:00 and [datetime.max] is
    9999-12-31T23:59:59.999999; a [timedelta] holds between -999999999 and
    999999999 days.  [timedelta(minutes=m)] and [datetime - timedelta]
    raise [OverflowError] outside these ranges. *)
Definition datetime_min : Z := -62135596800000000.
Definition datetime_max : Z := 253402300799999999.
Definition timedelta_min_minutes : Z := -999999999 * 1440.
Definition timedelta_max_minutes : Z := 999999999 * 1440 + 1439.

Module Bounded.

Definition timedelta_minutes (m : Z) : outcome Z :=
  if (timedelta_min_minutes <=? m) && (m <=? timedelta_max_minutes)
  then Ok (m * 60000000)
  else Raise OverflowError.

(** [dt - td]. *)
Definition datetime_sub (dt td : Z) : outcome Z :=
  if (datetime_min <=? dt - td) && (dt - td <=? datetime_max)
  then Ok (dt - td)
  else Raise OverflowError.

Definition window_body (timestamps : list Z) (window_minutes : Z)
    (left right : nat) : outcome (nat * (Z * Z)) :=
  start_time ← getitem timestamps right;
  td ← timedelta_minutes window_minutes;
  window_start ← datetime_sub start_time td;
  left' ← advance_left (length timestamps) timestamps window_start left;
  Ok (left', (start_time, Z.of_nat right - Z.of_nat left' + 1)).

Fixpoint window_loop (rights : list nat) (timestamps : list Z)
    (window_minutes : Z) (left : nat) (counts : list (Z * Z))
  : outcome (list (Z * Z)) :=
  match rights with
  | [] => Ok counts
  | r :: rights' =>
      '(left', entry) ← window_body timestamps window_minutes left r;
      window_loop rights' timestamps window_minutes left' (counts ++ [entry])
  end.

Definition sliding_window_counts (timestamps : list Z) (window_minutes : Z)
  : outcome (list (Z * Z)) :=
  window_loop (seq 0 (length timestamps)) timestamps window_minutes 0%nat [].

End Bounded.

(** ** function.py *)

Record Summary : Type := {
  total_requests : Z;
  time_range_start : option Z;
  time_range_end : option Z;
  avg_response_time_ms : Q;
  error_rate_percentage : Q;
}.

Record EndpointStat : Type := {
  es_endpoint : string;
  es_request_count : Z;
  es_avg_response_time_ms : Q;
  es_slowest_request_ms : Z;
  es_fastest_request_ms : Z;
  es_error_count : Z;
  es_most_common_status : option Z;
}.

Inductive Issue : Type :=
  | slow_endpoint (ep : string) (avg_ms threshold_ms : Q) (severity : Severity)
  | high_error_rate (ep : string) (error_rate : Q) (severity : Severity).

(** The two sentences [_recommendations] writes, by their variable parts. *)
Inductive Recommendation : Type :=
  | Investigate (ep : string) (avg_ms threshold_ms : Q)
  | Alert (ep : string) (error_rate : Q).

Record EndpointCost : Type := {
  ec_endpoint : string;
  ec_total_cost : Q;
  ec_cost_per_request : Q;
}.

Record CostBreakdown : Type := {
  request_costs : Q;
  execution_costs : Q;
  memory_costs : Q;
}.

Record CostAnalysis : Type := {
  total_cost_usd : Q;
  cost_breakdown : CostBreakdown;
  cost_by_endpoint : list EndpointCost;
  optimization_potential_usd : Q;
}.

Inductive Anomaly : Type :=
  | request_spike (ep : string) (at_time : Z) (normal_rate actual_rate : Z)
      (severity : Severity)
  | response_time_degradation (ep : string) (recent_avg_ms overall_avg_ms : Q)
      (severity : Severity)
  | error_cluster (ep : string) (time_window : string) (error_count : Z)
      (severity : Severity)
  | unusual_user_behavior (user : string) (share_percentage : Q)
      (severity : Severity).

Record Report : Type := {
  summary : Summary;
  endpoint_stats : list EndpointStat;
  performance_issues : list Issue;
  recommendations : list Recommendation;
  hourly_distribution : list (string * Z);
  top_users_by_requests : list (string * Z);
  cost_analysis : CostAnalysis;
  anomalies : list Anomaly;
}.

Definition _most_common_status (counter : list (Z * Z)) : outcome (option Z) :=
  match counter with
  | [] => Ok None
  | _ => top ← getitem (most_common 1 counter) 0; Ok (Some top.1)
  end.

Definition _calc_summary (valid_logs : list CanonicalRequest) : outcome Summary :=
  let total := len valid_logs in
  if total =? 0 then
    Ok {| total_requests := 0;
          time_range_start := None; time_range_end := None;
          avg_response_time_ms := 0; error_rate_percentage := 0 |}
  else
    let timestamps := map timestamp valid_logs in
    start ← py_min timestamps;
    end_ ← py_max timestamps;
    let sum_rt := sum_Z (map response_time_ms valid_logs) in
    avg_rt ← py_div (py_float sum_rt) (py_float total);
    let errors := len (List.filter (fun l => is_error_status (status_code l)) valid_logs) in
    err_rate ←
      (if total =? 0 then Ok 0%Q
       else q ← py_div (py_float errors) (py_float total); Ok (py_mul q 100));
    Ok {| total_requests := total;
          time_range_start := Some start; time_range_end := Some end_;
          avg_response_time_ms := py_round avg_rt 3;
          error_rate_percentage := py_round err_rate 3 |}.

Definition endpoint_le (a b : string) : bool := String.leb a b.

Definition endpoint_stat_of (item : string * EndpointAggregate)
  : outcome EndpointStat :=
  let '(ep, s) := item in
  avg_ms ←
    (if agg_count s =? 0 then Ok 0%Q
     else py_div (py_float (agg_sum_rt s)) (py_float (agg_count s)));
  status ← _most_common_status (agg_status_counter s);
  Ok {| es_endpoint := ep;
        es_request_count := agg_count s;
        es_avg_response_time_ms := py_round avg_ms 3;
        es_slowest_request_ms := default 0 (agg_slowest s);
        es_fastest_request_ms := default 0 (agg_fastest s);
        es_error_count := agg_error_count s;
        es_most_common_status := status |}.

Definition _calc_endpoint_stats (valid_logs : list CanonicalRequest)
  : outcome (list EndpointStat) :=
  let by_ep := aggregate_by_endpoint valid_logs in
  stats ← for_each endpoint_stat_of by_ep;
  Ok (py_sorted (fun a b => endpoint_le (es_endpoint a) (es_endpoint b)) stats).

(** The error rate of an endpoint as the issue detector and the
    recommendations compute it. *)
Definition endpoint_error_rate (s : EndpointStat) : outcome Q :=
  let total := es_request_count s in
  if total =? 0 then Ok 0%Q
  else q ← py_div (py_float (es_error_count s)) (py_float total); Ok (py_mul q 100).

Definition issues_of (s : EndpointStat) : outcome (list Issue) :=
  let slow :=
    match severity_for_response_time (es_avg_response_time_ms s) SEVERITY_THRESHOLDS_MS with
    | Some sev =>
        [slow_endpoint (es_endpoint s) (es_avg_response_time_ms s)
           DEFAULT_SLOW_ENDPOINT_THRESHOLD_MS sev]
    | None => []
    end in
  err_rate ← endpoint_error_rate s;
  let errs :=
    match severity_for_error_rate err_rate ERROR_RATE_THRESHOLDS_PERCENT with
    | Some err_sev => [high_error_rate (es_endpoint s) (py_round err_rate 3) err_sev]
    | None => []
    end in
  Ok (slow ++ errs).

Definition _detect_performance_issues (endpoint_stats : list EndpointStat)
  : outcome (list Issue) :=
  for_extend issues_of endpoint_stats.

Definition recommendations_of (s : EndpointStat) : outcome (list Recommendation) :=
  let slow :=
    if py_gt (es_avg_response_time_ms s) (medium SEVERITY_THRESHOLDS_MS)
    then [Investigate (es_endpoint s) (es_avg_response_time_ms s)
            (medium SEVERITY_THRESHOLDS_MS)]
    else [] in
  err_rate ← endpoint_error_rate s;
  let errs :=
    if py_gt err_rate (medium ERROR_RATE_THRESHOLDS_PERCENT)
    then [Alert (es_endpoint s) (py_round err_rate 3)]
    else [] in
  Ok (slow ++ errs).

Definition _recommendations (summary : Summary) (endpoint_stats : list EndpointStat)
  : outcome (list Recommendation) :=
  for_extend recommendations_of endpoint_stats.

(** [dict(sorted(dist.items()))]; the keys are distinct, so the order of
    the pairs is the order of their keys. *)
Definition _hourly_distribution (valid_logs : list CanonicalRequest)
  : list (string * Z) :=
  let dist :=
    fold_left (fun dist l => od_update (hourly_bucket (timestamp l)) Z.succ 0 dist)
      valid_logs [] in
  py_sorted (fun a b => String.leb a.1 b.1) dist.

Definition _top_users (valid_logs : list CanonicalRequest) (top_n : nat)
  : list (string * Z) :=
  let c := Counter (map user_id valid_logs) in
  most_common top_n c.

(** *** Option A: cost estimation *)

Fixpoint memory_cost_in (brackets : list (Z * option Z * Q)) (bytes_count : Z) : Q :=
  match brackets with
  | [] => 0
  | (low, high, cost) :: rest =>
      if (low <=? bytes_count) && (match high with
                                   | Some h => bytes_count <? h
                                   | None => true
                                   end)
      then cost
      else memory_cost_in rest bytes_count
  end.

Definition _memory_cost (bytes_count : Z) : Q :=
  memory_cost_in MEMORY_COST_BRACKETS bytes_count.

Definition request_total_cost (l : CanonicalRequest) : Q :=
  let per_req := COST_PER_REQUEST_USD in
  let exec_cost := py_mul (py_float (response_time_ms l)) COST_PER_MS_EXECUTION_USD in
  let mem_cost := _memory_cost (response_size_bytes l) in
  py_add (py_add per_req exec_cost) mem_cost.

Definition endpoint_cost_of (item : string * (Z * Q)) : outcome EndpointCost :=
  let '(ep, (count, total_cost)) := item in
  per_request ←
    (if count =? 0 then Ok 0%Q else py_div total_cost (py_float count));
  Ok {| ec_endpoint := ep;
        ec_total_cost := py_round total_cost 6;
        ec_cost_per_request := py_round per_request 6 |}.

Definition potential_savings_step (acc : Q) (s : EndpointStat) : Q :=
  if py_gt (es_avg_response_time_ms s) (medium SEVERITY_THRESHOLDS_MS) then
    let over := py_sub (es_avg_response_time_ms s) (medium SEVERITY_THRESHOLDS_MS) in
    py_add acc
      (py_mul (py_mul over COST_PER_MS_EXECUTION_USD) (py_float (es_request_count s)))
  else acc.

Definition _cost_analysis (valid_logs : list CanonicalRequest)
    (endpoint_stats : list EndpointStat) : outcome CostAnalysis :=
  let total_request_cost := py_mul (py_float (len valid_logs)) COST_PER_REQUEST_USD in
  let total_execution_cost :=
    py_sum (map (fun l => py_mul (py_float (response_time_ms l)) COST_PER_MS_EXECUTION_USD)
              valid_logs) in
  let total_memory_cost :=
    py_sum (map (fun l => _memory_cost (response_size_bytes l)) valid_logs) in
  let cost_by_ep_map :=
    fold_left
      (fun m l =>
         od_update (endpoint l)
           (fun d => (d.1 + 1, py_add d.2 (request_total_cost l))) (0, 0%Q) m)
      valid_logs [] in
  cost_by_endpoint ←
    for_each endpoint_cost_of (py_sorted (fun a b => String.leb a.1 b.1) cost_by_ep_map);
  let total_cost :=
    py_add (py_add total_request_cost total_execution_cost) total_memory_cost in
  let potential_savings := fold_left potential_savings_step endpoint_stats 0%Q in
  Ok {| total_cost_usd := py_round total_cost 6;
        cost_breakdown :=
          {| request_costs := py_round total_request_cost 6;
             execution_costs := py_round total_execution_cost 6;
             memory_costs := py_round total_memory_cost 6 |};
        cost_by_endpoint := cost_by_endpoint;
        optimization_potential_usd := py_round potential_savings 6 |}.

(** *** The cost totals in binary64

    The total and the breakdown of [_cost_analysis] as the interpreter
    computes them: a float is a binary64 number ([spec_float] with 53 bits
    of precision), [float(n)], [*], [+] and a decimal literal round to the
    nearest such number, ties to even, and [sum] adds from left to right
    (CPython up to 3.11; later versions compensate the sum, which changes
    nothing for a single term).  [round(x, n)] rounds the exact value of
    [x] to [n] decimals, ties to even, and returns the float nearest to
    that decimal.  The costs by endpoint and the optimization potential are
    not part of this evaluation. *)
Module Binary64.

Definition prec : Z := 53.
Definition emax : Z := 1024.

(** [float(z)] on an [int]. *)
Definition of_int (z : Z) : outcome spec_float :=
  match binary_normalize prec emax z 0 false with
  | S754_infinity _ => Raise OverflowError
  | x => Ok x
  end.

(** The float nearest to [num / 10^digits]: a decimal literal, or the
    result of [round]. *)
Definition of_decimal (num : Z) (digits : nat) : spec_float :=
  let scale := S754_finite false (Z.to_pos (10 ^ Z.of_nat digits)) 0 in
  match num with
  | Z0 => S754_zero false
  | Zpos p => SFdiv prec emax (S754_finite false p 0) scale
  | Zneg p => SFdiv prec emax (S754_finite true p 0) scale
  end.

Definition add (x y : spec_float) : spec_float := SFadd prec emax x y.
Definition mul (x y : spec_float) : spec_float := SFmul prec emax x y.

(** The number a float denotes. *)
Definition to_Q (x : spec_float) : Q :=
  match x with
  | S754_finite s m e =>
      let v := if 0 <=? e then inject_Z (Z.pos m * 2 ^ e)
               else Z.pos m # Z.to_pos (2 ^ (- e)) in
      if s then Qopp v else v
  | _ => 0%Q
  end.

Definition round (x : spec_float) (ndigits : nat) : spec_float :=
  match x with
  | S754_finite s _ _ =>
      let k := round_half_even (to_Q x * inject_Z (10 ^ Z.of_nat ndigits)) in
      if k =? 0 then S754_zero s else of_decimal k ndigits
  | _ => x
  end.

Definition sum (xs : list spec_float) : spec_float :=
  fold_left add xs (S754_zero false).

Definition COST_PER_REQUEST_USD : spec_float := of_decimal 1 4.
Definition COST_PER_MS_EXECUTION_USD : spec_float := of_decimal 2 6.

Definition _memory_cost (bytes_count : Z) : spec_float :=
  if (0 <=? bytes_count) && (bytes_count <? 1024) then of_decimal 1 5
  else if (1024 <=? bytes_count) && (bytes_count <? 10 * 1024) then of_decimal 5 5
  else if 10 * 1024 <=? bytes_count then of_decimal 1 4
  else S754_zero false.

Record CostTotals : Type := {
  total_cost_usd : spec_float;
  request_costs : spec_float;
  execution_costs : spec_float;
  memory_costs : spec_float;
}.

Definition _cost_analysis (valid_logs : list CanonicalRequest) : outcome CostTotals :=
  n ← of_int (len valid_logs);
  let total_request_cost := mul n COST_PER_REQUEST_USD in
  execution ←
    for_each (fun l => rt ← of_int (response_time_ms l);
                       Ok (mul rt COST_PER_MS_EXECUTION_USD)) valid_logs;
  let total_execution_cost := sum execution in
  let total_memory_cost :=
    sum (map (fun l => _memory_cost (response_size_bytes l)) valid_logs) in
  let total_cost := add (add total_request_cost total_execution_cost) total_memory_cost in
  Ok {| total_cost_usd := round total_cost 6;
        request_costs := round total_request_cost 6;
        execution_costs := round total_execution_cost 6;
        memory_costs := round total_memory_cost 6 |}.

End Binary64.

(** *** Option B: anomaly detection *)

(** [td.total_seconds()] and float [a // b]. *)
Definition total_seconds (td : Z) : Q := Qred (td # 1000000).
Definition py_floordiv (a b : Q) : Q := inject_Z (Qfloor (a / b)).

(** [for t, count in ...: if ...: anomalies.append(...); break], the scan
    for a request spike. *)
Fixpoint first_spike (ep : string) (normal_rate : Q) (counts : list (Z * Z))
  : list Anomaly :=
  match counts with
  | [] => []
  | (t, count) :: rest =>
      if py_gt (py_float count) (py_mul REQUEST_SPIKE_MULTIPLIER normal_rate)
         && (1 <=? count)
      then
        [request_spike ep t (py_int_of_float normal_rate) count
           (if py_gt (py_float count)
                 (py_mul (py_mul 2 REQUEST_SPIKE_MULTIPLIER) normal_rate)
            then High else Medium)]
      else first_spike ep normal_rate rest
  end.

Definition spike_of (item : string * list Z) : outcome (list Anomaly) :=
  let '(ep, ts_list) := item in
  let ts_list := py_sorted Z.leb ts_list in
  hi ← py_max ts_list;
  lo ← py_min ts_list;
  let minutes := py_int_of_float (py_floordiv (total_seconds (hi - lo)) 60) in
  let duration_minutes := Z.max 1 (if minutes =? 0 then 1 else minutes) in
  per_window ← py_div (py_float duration_minutes) (py_float REQUEST_SPIKE_WINDOW_MINUTES);
  let windows := py_max2 1 per_window in
  normal_rate ← py_div (py_float (len ts_list)) windows;
  counts ← sliding_window_counts ts_list REQUEST_SPIKE_WINDOW_MINUTES;
  Ok (first_spike ep normal_rate counts).

Definition request_spikes (valid_logs : list CanonicalRequest)
  : outcome (list Anomaly) :=
  let by_endpoint_ts :=
    fold_left
      (fun d l => od_update (endpoint l) (fun ts => ts ++ [timestamp l]) [] d)
      valid_logs [] in
  for_extend spike_of by_endpoint_ts.

Definition degradation_of (item : string * list CanonicalRequest)
  : outcome (list Anomaly) :=
  let '(ep, logs) := item in
  let logs := py_sorted (fun a b => timestamp a <=? timestamp b) logs in
  let n := len logs in
  if n <? 5 then Ok []
  else
    let recent :=
      drop (Z.to_nat (Z.max 0 (py_int_of_float (py_mul (py_float n) (9 # 10))))) logs in
    recent_avg ←
      py_div (py_float (sum_Z (map response_time_ms recent))) (py_float (len recent));
    overall_avg ←
      py_div (py_float (sum_Z (map response_time_ms logs))) (py_float n);
    if py_gt recent_avg (py_mul RESPONSE_DEGRADATION_MULTIPLIER overall_avg)
       && py_gt recent_avg (medium SEVERITY_THRESHOLDS_MS)
    then
      Ok [response_time_degradation ep (py_round recent_avg 3) (py_round overall_avg 3)
            (if py_gt recent_avg
                  (py_mul (py_mul RESPONSE_DEGRADATION_MULTIPLIER overall_avg) (3 # 2))
             then High else Medium)]
    else Ok [].

Definition response_time_degradations (valid_logs : list CanonicalRequest)
  : outcome (list Anomaly) :=
  let by_endpoint_logs :=
    fold_left
      (fun d l => od_update (endpoint l) (fun logs => logs ++ [l]) [] d)
      valid_logs [] in
  for_extend degradation_of by_endpoint_logs.

(** The scan for an error cluster, with its [break]. *)
Fixpoint first_cluster (ep : string) (counts : list (Z * Z)) : list Anomaly :=
  match counts with
  | [] => []
  | (t, count) :: rest =>
      if ERROR_CLUSTER_THRESHOLD <=? count then
        [error_cluster ep
           (strftime_HM (t - timedelta_minutes ERROR_CLUSTER_WINDOW_MINUTES)
              ++ "-" ++ strftime_HM t)%string
           count
           (if ERROR_CLUSTER_THRESHOLD * 2 <=? count then Critical else High)]
      else first_cluster ep rest
  end.

Definition cluster_of (item : string * list Z) : outcome (list Anomaly) :=
  let '(ep, ts_list) := item in
  let ts_list := py_sorted Z.leb ts_list in
  counts ← sliding_window_counts ts_list ERROR_CLUSTER_WINDOW_MINUTES;
  Ok (first_cluster ep counts).

Definition error_clusters (valid_logs : list CanonicalRequest)
  : outcome (list Anomaly) :=
  let error_ts :=
    fold_left
      (fun d l =>
         if (400 <=? status_code l) && (status_code l <=? 599)
         then od_update (endpoint l) (fun ts => ts ++ [timestamp l]) [] d
         else d)
      valid_logs [] in
  for_extend cluster_of error_ts.

Definition unusual_user (valid_logs : list CanonicalRequest)
  : outcome (list Anomaly) :=
  let total := len valid_logs in
  let user_counts := Counter (map user_id valid_logs) in
  if 0 <? total then
    '(user_id, cnt) ← getitem (most_common 1 user_counts) 0;
    share ← py_div (py_float cnt) (py_float total);
    if py_gt share UNUSUAL_USER_SHARE_THRESHOLD then
      Ok [unusual_user_behavior user_id (py_round (py_mul share 100) 3)
            (if py_gt share (7 # 10) then High else Medium)]
    else Ok []
  else Ok [].

Definition _anomalies (valid_logs : list CanonicalRequest)
    (endpoint_stats : list EndpointStat) : outcome (list Anomaly) :=
  match valid_logs with
  | [] => Ok []
  | _ =>
      spikes ← request_spikes valid_logs;
      degradations ← response_time_degradations valid_logs;
      clusters ← error_clusters valid_logs;
      users ← unusual_user valid_logs;
      Ok (spikes ++ degradations ++ clusters ++ users)
  end.

Section analyze.
Context `{Runtime}.

Definition analyze_api_logs (logs : list (gmap string pyval)) : outcome Report :=
  let valid_logs := omap validate_log_entry logs in
  summary ← _calc_summary valid_logs;
  endpoint_stats ← _calc_endpoint_stats valid_logs;
  performance_issues ← _detect_performance_issues endpoint_stats;
  recommendations ← _recommendations summary endpoint_stats;
  let hourly_distribution := _hourly_distribution valid_logs in
  let top_users_by_requests := _top_users valid_logs 5 in
  cost_analysis ← _cost_analysis valid_logs endpoint_stats;
  anomalies ← _anomalies valid_logs endpoint_stats;
  Ok {| summary := summary;
        endpoint_stats := endpoint_stats;
        performance_issues := performance_issues;
        recommendations := recommendations;
        hourly_distribution := hourly_distribution;
        top_users_by_requests := top_users_by_requests;
        cost_analysis := cost_analysis;
        anomalies := anomalies |}.
End analyze.

(** ** A concrete runtime for the examples

    Values are [None], integers and ASCII text.  [int] reads a decimal
    numeral the way Python does (surrounding blanks, a sign, single
    underscores between digits); timestamps are read in the form the test
    suite's [make_log] writes, [YYYY-MM-DDTHH:MM:SSZ]. *)

Module Fixture.

Inductive value : Type :=
  | VNone
  | VInt (z : Z)
  | VStr (s : string).

Definition digit_value (c : ascii) : option Z :=
  let n := Z.of_nat (nat_of_ascii c) in
  if (48 <=? n) && (n <=? 57) then Some (n - 48) else None.

Definition is_space (c : ascii) : bool :=
  let n := Z.of_nat (nat_of_ascii c) in
  ((9 <=? n) && (n <=? 13)) || ((28 <=? n) && (n <=? 32)).

Fixpoint digits_value (acc : Z) (after_digit : bool) (l : list ascii) : option Z :=
  match l with
  | [] => if after_digit then Some acc else None
  | c :: l' =>
      if Ascii.eqb c "_" then
        if after_digit then digits_value acc false l' else None
      else
        d ← digit_value c; digits_value (10 * acc + d) true l'
  end.

Fixpoint lstrip (l : list ascii) : list ascii :=
  match l with
  | c :: l' => if is_space c then lstrip l' else l
  | [] => []
  end.

Definition strip (l : list ascii) : list ascii :=
  rev (lstrip (rev (lstrip l))).

Definition int_of_text (s : string) : option Z :=
  match strip (list_ascii_of_string s) with
  | c :: l' =>
      if Ascii.eqb c "-" then Z.opp <$> digits_value 0 false l'
      else if Ascii.eqb c "+" then digits_value 0 false l'
      else digits_value 0 false (c :: l')
  | [] => None
  end.

Definition text_of_int (z : Z) : string :=
  DecimalString.NilZero.string_of_int (Z.to_int z).

Definition upper_char (c : ascii) : ascii :=
  let n := nat_of_ascii c in
  if (97 <=? n)%nat && (n <=? 122)%nat then ascii_of_nat (n - 32) else c.

Fixpoint upper (s : string) : string :=
  match s with
  | EmptyString => EmptyString
  | String c s' => String (upper_char c) (upper s')
  end.

(** Days from 1970-01-01 to the given day of the proleptic Gregorian
    calendar. *)
Definition days_from_civil (y m d : Z) : Z :=
  let y' := if m <=? 2 then y - 1 else y in
  let era := y' / 400 in
  let yoe := y' - era * 400 in
  let doy := (153 * (if 2 <? m then m - 3 else m + 9) + 2) / 5 + d - 1 in
  let doe := yoe * 365 + yoe / 4 - yoe / 100 + doy in
  era * 146097 + doe - 719468.

Definition is_leap (y : Z) : bool :=
  ((y mod 4 =? 0) && negb (y mod 100 =? 0)) || (y mod 400 =? 0).

Definition days_in_month (y m : Z) : Z :=
  if m =? 2 then (if is_leap y then 29 else 28)
  else if (m =? 4) || (m =? 6) || (m =? 9) || (m =? 11) then 30
  else 31.

Definition field (l : list ascii) : option Z := digits_value 0 false l.

Definition no_underscore (l : list ascii) : bool :=
  forallb (fun c => negb (Ascii.eqb c "_")) l.

(** [YYYY-MM-DDTHH:MM:SS+00:00], in microseconds since the epoch. *)
Definition parse_iso (s : string) : option Z :=
  match list_ascii_of_string s with
  | [y1; y2; y3; y4; d1; m1; m2; d2; a1; a2; sep; h1; h2; c1; n1; n2; c2; s1; s2;
     o1; o2; o3; o4; o5; o6] =>
      if Ascii.eqb d1 "-" && Ascii.eqb d2 "-" && Ascii.eqb sep "T"
         && Ascii.eqb c1 ":" && Ascii.eqb c2 ":"
         && String.eqb (string_of_list_ascii [o1; o2; o3; o4; o5; o6]) "+00:00"
         && no_underscore [y1; y2; y3; y4; m1; m2; a1; a2; h1; h2; n1; n2; s1; s2]
      then
        y ← field [y1; y2; y3; y4];
        m ← field [m1; m2];
        d ← field [a1; a2];
        hh ← field [h1; h2];
        mm ← field [n1; n2];
        ss ← field [s1; s2];
        if (1 <=? y) && (1 <=? m) && (m <=? 12) && (1 <=? d)
           && (d <=? days_in_month y m) && (hh <? 24) && (mm <? 60) && (ss <? 60)
        then Some ((((days_from_civil y m d * 24 + hh) * 60 + mm) * 60 + ss) * 1000000)
        else None
      else None
  | _ => None
  end.

Global Instance runtime : Runtime := {|
  pyval := value;
  as_str v := match v with VStr s => Some s | _ => None end;
  py_int v :=
    match v with
    | VInt z => Some z
    | VStr s => int_of_text s
    | VNone => None
    end;
  py_str v :=
    Some match v with
         | VStr s => s
         | VInt z => text_of_int z
         | VNone => "None"%string
         end;
  py_upper := upper;
  fromisoformat_utc := parse_iso;
|}.

(** The record [make_log] of the test suite builds. *)
Definition make_log (ts : string) (endpoint method : string) (rt_ms status : Z)
    (user_id : string) (req_bytes resp_bytes : Z) : gmap string value :=
  list_to_map
    [ ("timestamp", VStr ts); ("endpoint", VStr endpoint); ("method", VStr method);
      ("response_time_ms", VInt rt_ms); ("status_code", VInt status);
      ("user_id", VStr user_id); ("request_size_bytes", VInt req_bytes);
      ("response_size_bytes", VInt resp_bytes) ]%string.

(** The rendering of an instant that [parse_iso] reads back, for instants
    within one day of the given date. *)
Definition iso_on (date : string) (seconds_of_day : Z) : string :=
  (date ++ "T" ++ two_digits (seconds_of_day / 3600) ++ ":"
     ++ two_digits (seconds_of_day / 60 mod 60) ++ ":"
     ++ two_digits (seconds_of_day mod 60) ++ "Z")%string.

End Fixture.

(** * Vocabulary of the statements *)

(** The order [none < medium < high < critical]. *)
Definition severity_rank (s : option Severity) : Z :=
  match s with
  | None => 0
  | Some Medium => 1
  | Some High => 2
  | Some Critical => 3
  end.

(** What both classifiers compute, read off the thresholds. *)
Definition classified (v : Q) (th : Thresholds) (s : option Severity) : Prop :=
  match s with
  | Some Critical => (critical th < v)%Q
  | Some High => ~ (critical th < v)%Q /\ (high th < v)%Q
  | Some Medium => ~ (critical th < v)%Q /\ ~ (high th < v)%Q /\ (medium th < v)%Q
  | None => ~ (critical th < v)%Q /\ ~ (high th < v)%Q /\ ~ (medium th < v)%Q
  end.

(** The threshold of a level. *)
Definition threshold_of (th : Thresholds) (s : Severity) : Q :=
  match s with
  | Medium => medium th
  | High => high th
  | Critical => critical th
  end.




(** The report of an input without a single valid record. *)
Definition empty_report : Report :=
  {| summary :=
       {| total_requests := 0;
          time_range_start := None; time_range_end := None;
          avg_response_time_ms := 0; error_rate_percentage := 0 |};
     endpoint_stats := [];
     performance_issues := [];
     recommendations := [];
     hourly_distribution := [];
     top_users_by_requests := [];
     cost_analysis :=
       {| total_cost_usd := 0;
          cost_breakdown :=
            {| request_costs := 0; execution_costs := 0; memory_costs := 0 |};
          cost_by_endpoint := [];
          optimization_potential_usd := 0 |};
     anomalies := [] |}.

Section malformed.
Context `{Runtime}.


End malformed.

(** The number of instants of [l] in the closed interval [[lo, hi]]. *)
Definition count_within (lo hi : Z) (l : list Z) : Z :=
  len (List.filter (fun x => (lo <=? x) && (x <=? hi)) l).

(** Ascending order of a list of instants, by positions. *)
Definition ascending (l : list Z) : Prop :=
  forall i j x y, (i <= j)%nat -> l !! i = Some x -> l !! j = Some y -> x <= y.

Definition strictly_ascending (l : list Z) : Prop :=
  forall i j x y, (i < j)%nat -> l !! i = Some x -> l !! j = Some y -> x < y.

(** The valid records of an endpoint, and the records with an error
    status, both in input order. *)
Definition requests_to (ep : string) (valid_logs : list CanonicalRequest)
  : list CanonicalRequest :=
  List.filter (fun l => bool_decide (endpoint l = ep)) valid_logs.

Definition errors_of (valid_logs : list CanonicalRequest) : list CanonicalRequest :=
  List.filter (fun l => is_error_status (status_code l)) valid_logs.

(** What a step that ended normally found; nothing if it raised. *)
Definition findings {B} (o : outcome (list B)) : list B :=
  match o with
  | Ok l => l
  | Raise _ => []
  end.

(** The four kinds of anomaly, and the findings about one endpoint. *)
Inductive Kind : Set := KSpike | KDegradation | KCluster | KUser.

Definition kind_of (a : Anomaly) : Kind :=
  match a with
  | request_spike _ _ _ _ _ => KSpike
  | response_time_degradation _ _ _ _ => KDegradation
  | error_cluster _ _ _ _ => KCluster
  | unusual_user_behavior _ _ _ => KUser
  end.

Definition is_kind (k : Kind) (a : Anomaly) : bool :=
  match k, kind_of a with
  | KSpike, KSpike | KDegradation, KDegradation
  | KCluster, KCluster | KUser, KUser => true
  | _, _ => false
  end.

Definition anomaly_endpoint (a : Anomaly) : option string :=
  match a with
  | request_spike ep _ _ _ _ => Some ep
  | response_time_degradation ep _ _ _ => Some ep
  | error_cluster ep _ _ _ => Some ep
  | unusual_user_behavior _ _ _ => None
  end.

Definition is_finding (k : Kind) (ep : string) (a : Anomaly) : bool :=
  is_kind k a && bool_decide (anomaly_endpoint a = Some ep).

(** The normal rate of an endpoint: its number of requests divided by
    [max(1, duration-in-minutes / 5)], the duration being the span from the
    first to the last instant in whole minutes, at least 1. *)
Definition span (ts : list Z) : Z :=
  match ts with
  | [] => 0
  | x :: xs => fold_left Z.max xs x - fold_left Z.min xs x
  end.

Definition duration_minutes (ts : list Z) : Z := Z.max 1 (span ts / 60000000).

Definition normal_rate (ts : list Z) : Q :=
  Qred (py_float (len ts)
        / py_max2 1 (Qred (py_float (duration_minutes ts)
                           / py_float REQUEST_SPIKE_WINDOW_MINUTES))).

(** The instants of the requests to an endpoint, ascending. *)
Definition instants_of (ep : string) (valid_logs : list CanonicalRequest) : list Z :=
  py_sorted Z.leb (map timestamp (requests_to ep valid_logs)).

(** The number of valid requests of a user. *)
Definition user_count (u : string) (valid_logs : list CanonicalRequest) : Z :=
  len (List.filter (fun l => bool_decide (user_id l = u)) valid_logs).





(** ** The scenarios of the specification

    All on 2025-01-15 from 10:00:00 UTC, [seconds] after which a request is
    placed. *)
Definition scenario_request (seconds : Z) (ep user : string) (status : Z)
  : CanonicalRequest :=
  {| timestamp := (1736935200 + seconds) * 1000000;
     endpoint := ep; method := "GET";
     response_time_ms := 120; status_code := status; user_id := user;
     request_size_bytes := 512; response_size_bytes := 2048 |}.

(** Twenty requests one minute apart over twenty minutes, then fifteen
    within the following minute, four seconds apart. *)
Definition spike_scenario : list CanonicalRequest :=
  map (fun i => scenario_request (60 * Z.of_nat i) "/api/users" "user_001" 200) (seq 0 20)
  ++ map (fun j => scenario_request (1200 + 4 * Z.of_nat j) "/api/users" "user_001" 200)
       (seq 0 15).



(** The scenarios as raw records, the way the test suite writes them. *)
Definition raw_request (seconds : Z) (ep user : string) (status : Z)
  : gmap string (@pyval Fixture.runtime) :=
  Fixture.make_log (Fixture.iso_on "2025-01-15" (36000 + seconds)) ep "GET" 120 status
    user 512 2048.

Definition spike_scenario_logs : list (gmap string (@pyval Fixture.runtime)) :=
  map (fun i => raw_request (60 * Z.of_nat i) "/api/users" "user_001" 200) (seq 0 20)
  ++ map (fun j => raw_request (1200 + 4 * Z.of_nat j) "/api/users" "user_001" 200)
       (seq 0 15).







(** A record with a negative response time next to a good one. *)
Definition negative_time_log : gmap string (@pyval Fixture.runtime) :=
  Fixture.make_log "2025-01-15T10:00:00Z" "/api/users" "GET" (-10) 200 "user_1" 512 2048.

Definition good_log : gmap string (@pyval Fixture.runtime) :=
  Fixture.make_log "2025-01-15T10:00:00Z" "/api/users" "GET" 150 200 "user_1" 512 2048.

(** A record with a response time of 10^18 ms. *)
Definition huge_log : gmap string (@pyval Fixture.runtime) :=
  Fixture.make_log "2025-01-15T10:00:00Z" "/api/users" "GET" (10 ^ 18) 200 "user_1" 512 2048.

(** * Vocabulary of the further properties *)

(** The valid records among raw records, as [analyze_api_logs] collects
    them. *)
Definition valid_records `{Runtime} (logs : list (gmap string pyval))
  : list CanonicalRequest :=
  omap validate_log_entry logs.







(** * Properties *)

(** ** Numbers *)

Lemma py_gt_spec (a b : Q) : py_gt a b = true <-> (b < a)%Q.
Proof.
  unfold py_gt. rewrite negb_true_iff, <- not_true_iff_false, Qle_bool_iff.
  split; [apply Qnot_le_lt | apply Qlt_not_le].
Qed.

Lemma py_gt_false (a b : Q) : py_gt a b = false <-> (a <= b)%Q.
Proof.
  unfold py_gt. rewrite negb_false_iff. apply Qle_bool_iff.
Qed.

Lemma py_gt_irrefl (a b : Q) : (a == b)%Q -> py_gt a b = false.
Proof. intros E. apply py_gt_false. rewrite E. apply Qle_refl. Qed.

(** ** The severity classifier *)

Ltac by_thresholds v th :=
  destruct (py_gt v (critical th)) eqn:Hc; destruct (py_gt v (high th)) eqn:Hh;
  destruct (py_gt v (medium th)) eqn:Hm;
  repeat match goal with
    | E : py_gt _ _ = true |- _ => apply py_gt_spec in E
    | E : py_gt _ _ = false |- _ => apply py_gt_false in E
    end.

Lemma severity_for_response_time_classified (v : Q) (th : Thresholds) (s : option Severity) :
  severity_for_response_time v th = s <-> classified v th s.
Proof.
  unfold severity_for_response_time.
  by_thresholds v th; destruct s as [[]|]; simpl;
    (split; [intros E; first [discriminate E | lra]
            | intros C; first [reflexivity | exfalso; lra]]).
Qed.

Lemma severity_for_error_rate_same (v : Q) (th : Thresholds) :
  severity_for_error_rate v th = severity_for_response_time v th.
Proof. reflexivity. Qed.

Ltac same_classifier :=
  repeat match goal with
    | |- context [severity_for_error_rate ?v ?th] =>
        change (severity_for_error_rate v th) with (severity_for_response_time v th)
    end.

(** C6.  Both classifiers return "critical" exactly for a value strictly
    above the critical threshold, otherwise "high" exactly for a value
    strictly above the high threshold, otherwise "medium" exactly for a value
    strictly above the medium threshold, otherwise nothing; and for every
    threshold set a value equal to the threshold of a level is never put at
    that level. *)
Theorem severity_strict_first_match (v : Q) (th : Thresholds) :
  (forall s, severity_for_response_time v th = s <-> classified v th s)
  /\ (forall s, severity_for_error_rate v th = s <-> classified v th s)
  /\ (forall level, (v == threshold_of th level)%Q ->
        severity_for_response_time v th <> Some level
        /\ severity_for_error_rate v th <> Some level).
Proof.
  split; [|split].
  - apply severity_for_response_time_classified.
  - intros s. same_classifier.
    apply severity_for_response_time_classified.
  - intros level E. same_classifier.
    assert (severity_for_response_time v th <> Some level) as N; [|auto].
    intros C. apply severity_for_response_time_classified in C.
    destruct level; simpl in *; lra.
Qed.

(** C7.  With the configured thresholds the classification is monotone in
    the value, and a value strictly above the critical threshold is
    critical. *)
Theorem severity_monotone (v1 v2 : Q) :
  (v1 <= v2)%Q ->
  severity_rank (severity_for_response_time v1 SEVERITY_THRESHOLDS_MS)
    <= severity_rank (severity_for_response_time v2 SEVERITY_THRESHOLDS_MS)
  /\ severity_rank (severity_for_error_rate v1 ERROR_RATE_THRESHOLDS_PERCENT)
    <= severity_rank (severity_for_error_rate v2 ERROR_RATE_THRESHOLDS_PERCENT)
  /\ ((critical SEVERITY_THRESHOLDS_MS < v2)%Q ->
        severity_for_response_time v2 SEVERITY_THRESHOLDS_MS = Some Critical)
  /\ ((critical ERROR_RATE_THRESHOLDS_PERCENT < v2)%Q ->
        severity_for_error_rate v2 ERROR_RATE_THRESHOLDS_PERCENT = Some Critical).
Proof.
  intros Hle.
  assert (forall th, (medium th <= high th)%Q -> (high th <= critical th)%Q ->
            severity_rank (severity_for_response_time v1 th)
              <= severity_rank (severity_for_response_time v2 th)) as mono.
  { intros th Hmh Hhc. unfold severity_for_response_time.
    destruct (py_gt v1 (critical th)) eqn:C1; destruct (py_gt v1 (high th)) eqn:H1;
      destruct (py_gt v1 (medium th)) eqn:M1;
      destruct (py_gt v2 (critical th)) eqn:C2; destruct (py_gt v2 (high th)) eqn:H2;
      destruct (py_gt v2 (medium th)) eqn:M2; simpl; try lia; exfalso;
      repeat match goal with
        | E : py_gt _ _ = true |- _ => apply py_gt_spec in E
        | E : py_gt _ _ = false |- _ => apply py_gt_false in E
        end; lra. }
  repeat split.
  - apply mono; simpl; lra.
  - same_classifier. apply mono; simpl; lra.
  - intros C. apply severity_for_response_time_classified. exact C.
  - intros C. same_classifier.
    apply severity_for_response_time_classified. exact C.
Qed.

Lemma severity_monotone_witness :
  (600 <= 1500)%Q
  /\ severity_rank (severity_for_response_time 600 SEVERITY_THRESHOLDS_MS)
     <= severity_rank (severity_for_response_time 1500 SEVERITY_THRESHOLDS_MS).
Proof.
  split; [lra|]. apply (severity_monotone 600 1500). lra.
Defined.

(** ** Outcomes *)

Lemma bind_Ok {A B} (k : A -> outcome B) (a : A) : (Ok a ≫= k) = k a.
Proof. reflexivity. Qed.

Lemma bind_Ok_inv {A B} (m : outcome A) (k : A -> outcome B) (b : B) :
  m ≫= k = Ok b -> exists a, m = Ok a /\ k a = Ok b.
Proof. destruct m as [a|e]; [eauto | discriminate]. Qed.

Lemma py_div_ok (a b : Q) : ~ (b == 0)%Q -> py_div a b = Ok (Qred (a / b)).
Proof.
  intros N. unfold py_div. destruct (Qeq_bool b 0) eqn:E; [|reflexivity].
  apply Qeq_bool_iff in E. contradiction.
Qed.

Lemma py_float_nonzero (z : Z) : z <> 0 -> ~ (py_float z == 0)%Q.
Proof.
  intros N E. unfold py_float, inject_Z, Qeq in E. simpl in E. lia.
Qed.

Lemma py_div_int_ok (a : Q) (z : Z) :
  z <> 0 -> py_div a (py_float z) = Ok (Qred (a / py_float z)).
Proof. intros N. apply py_div_ok, py_float_nonzero, N. Qed.

(** ** Validation *)

Section validation.
Context `{Runtime}.



Lemma required_fields_present (entry : gmap string pyval) :
  forallb (fun f => bool_decide (is_Some (entry !! f))) REQUIRED_FIELDS = true
  <-> forall f, f ∈ REQUIRED_FIELDS -> is_Some (entry !! f).
Proof.
  rewrite forallb_forall. split; intros P f Hf.
  - apply list_elem_of_In in Hf. apply P in Hf. apply bool_decide_eq_true in Hf. exact Hf.
  - apply bool_decide_eq_true, P, list_elem_of_In, Hf.
Qed.

(** The validator as one decision over the eight coerced fields. *)
Lemma validate_log_entry_unfold (entry : gmap string pyval) :
  validate_log_entry entry =
    if forallb (fun f => bool_decide (is_Some (entry !! f))) REQUIRED_FIELDS then
      match entry !! "timestamp"%string ≫= parse_timestamp,
            entry !! "endpoint"%string ≫= safe_str,
            entry !! "method"%string ≫= safe_str,
            entry !! "response_time_ms"%string ≫= safe_int,
            entry !! "status_code"%string ≫= safe_int,
            entry !! "user_id"%string ≫= safe_str,
            entry !! "request_size_bytes"%string ≫= safe_int,
            entry !! "response_size_bytes"%string ≫= safe_int
      with
      | Some ts, Some ep, Some m, Some rt, Some st, Some u, Some rq, Some rs =>
          Some {| timestamp := ts; endpoint := ep; method := py_upper m;
                  response_time_ms := rt; status_code := st; user_id := u;
                  request_size_bytes := rq; response_size_bytes := rs |}
      | _, _, _, _, _, _, _, _ => None
      end
    else None.
Proof.
  unfold validate_log_entry.
  destruct (forallb _ REQUIRED_FIELDS); [|reflexivity].
  destruct (entry !! "timestamp"%string ≫= parse_timestamp); [|reflexivity].
  destruct (entry !! "endpoint"%string ≫= safe_str); [|reflexivity].
  destruct (entry !! "method"%string ≫= safe_str); [|reflexivity].
  destruct (entry !! "response_time_ms"%string ≫= safe_int); [|reflexivity].
  destruct (entry !! "status_code"%string ≫= safe_int); [|reflexivity].
  destruct (entry !! "user_id"%string ≫= safe_str); [|reflexivity].
  destruct (entry !! "request_size_bytes"%string ≫= safe_int); [|reflexivity].
  destruct (entry !! "response_size_bytes"%string ≫= safe_int); reflexivity.
Qed.

Lemma missing_field_rejected (entry : gmap string pyval) (f : string) :
  f ∈ REQUIRED_FIELDS -> entry !! f = None -> validate_log_entry entry = None.
Proof.
  intros Hf E. unfold validate_log_entry.
  destruct (forallb _ REQUIRED_FIELDS) eqn:P; [|reflexivity].
  pose proof (proj1 (required_fields_present entry) P f Hf) as Hs. rewrite E in Hs.
  destruct Hs as [? ?]. discriminate.
Qed.


(** An accepted record carries exactly the eight coerced fields. *)
Lemma validate_log_entry_Some (entry : gmap string pyval) (c : CanonicalRequest) :
  validate_log_entry entry = Some c ->
  0 <= response_time_ms c /\ 0 <= status_code c
  /\ 0 <= request_size_bytes c /\ 0 <= response_size_bytes c
  /\ endpoint c <> ""%string /\ user_id c <> ""%string.
Proof.
  rewrite validate_log_entry_unfold.
  destruct (forallb _ REQUIRED_FIELDS); [|discriminate].
  repeat case_match; try discriminate. intros [= <-]. simpl.
  assert (forall v k, (entry !! v) ≫= safe_int = Some k -> 0 <= k) as I.
  { intros v k E. destruct (entry !! v) as [x|]; [|discriminate]. simpl in E.
    unfold safe_int in E. destruct (py_int x) as [m|]; [|discriminate]. simpl in E.
    destruct (Z.leb_spec 0 m); [|discriminate]. by injection E as <-. }
  assert (forall v t, (entry !! v) ≫= safe_str = Some t -> t <> ""%string) as S.
  { intros v t E. destruct (entry !! v) as [x|]; [|discriminate]. simpl in E.
    unfold safe_str in E. destruct (py_str x) as [m|]; [|discriminate]. simpl in E.
    destruct (String.eqb_spec m ""); [discriminate|]. by injection E as <-. }
  repeat split; eauto.
Qed.
End validation.

(** ** The sliding window *)

Lemma getitem_Ok {A} (l : list A) (i : nat) (x : A) :
  getitem l i = Ok x <-> l !! i = Some x.
Proof.
  unfold getitem. destruct (l !! i); split; intros E; try discriminate; congruence.
Qed.

Lemma timedelta_minutes_nonneg (w : Z) : 0 <= w -> 0 <= timedelta_minutes w.
Proof. unfold timedelta_minutes. lia. Qed.

(** The inner loop stops at the first position from [left] on whose instant
    is not before the window, provided there is one within the budget. *)
Lemma advance_left_spec (timestamps : list Z) (ws : Z) (r : nat) (x : Z) :
  timestamps !! r = Some x -> ws <= x ->
  forall fuel left, (left <= r)%nat -> (r - left <= fuel)%nat ->
  exists left',
    advance_left fuel timestamps ws left = Ok left'
    /\ (left <= left' <= r)%nat
    /\ (exists y, timestamps !! left' = Some y /\ ws <= y)
    /\ (forall j y, (left <= j < left')%nat -> timestamps !! j = Some y -> y < ws).
Proof.
  intros Hr Hx fuel. induction fuel as [|fuel IH]; intros left Hle Hfuel.
  - assert (left = r) as -> by lia.
    exists r. simpl. unfold getitem at 1. rewrite Hr. simpl.
    destruct (Z.ltb_spec x ws); [lia|].
    repeat split; eauto; lia.
  - simpl. destruct (timestamps !! left) as [y|] eqn:Ey.
    2: { apply lookup_ge_None in Ey. apply lookup_lt_Some in Hr. lia. }
    unfold getitem at 1. rewrite Ey. simpl.
    destruct (Z.ltb_spec y ws) as [Hlt|Hge].
    + assert (left <> r) by (intros ->; rewrite Hr in Ey; injection Ey as ->; lia).
      destruct (IH (S left)) as (l' & E & B & P & Q); [lia..|].
      exists l'. split; [exact E|]. split; [lia|]. split; [exact P|].
      intros j z Hj Ez. destruct (decide (j = left)) as [->|Hne].
      * rewrite Ey in Ez. injection Ez as <-. exact Hlt.
      * apply (Q j); [lia|exact Ez].
    + exists left. repeat split; eauto; lia.
Qed.

Lemma filter_none {A} (f : A -> bool) (l : list A) :
  (forall x, x ∈ l -> f x = false) -> List.filter f l = [].
Proof.
  induction l as [|a l IH]; intros P; simpl; [reflexivity|].
  rewrite (P a) by constructor. apply IH. intros x Hx. apply P. by constructor.
Qed.

Lemma filter_all {A} (f : A -> bool) (l : list A) :
  (forall x, x ∈ l -> f x = true) -> List.filter f l = l.
Proof.
  induction l as [|a l IH]; intros P; simpl; [reflexivity|].
  rewrite (P a) by constructor. f_equal. apply IH. intros x Hx. apply P. by constructor.
Qed.



(** In an ascending list, once the positions before [l] are out of the
    window and position [l] is in it, the window that ends at position [r]
    holds the positions [l..r]. *)
Lemma count_within_window (ts : list Z) (lo t : Z) (l r : nat) :
  ascending ts -> ts !! r = Some t -> (l <= r)%nat ->
  (forall j y, (j < l)%nat -> ts !! j = Some y -> y < lo) ->
  (exists y, ts !! l = Some y /\ lo <= y) ->
  count_within lo t (take (S r) ts) = Z.of_nat r - Z.of_nat l + 1.
Proof.
  intros Asc Hr Hlr Hout (y0 & Hl0 & Hy0).
  unfold count_within, len.
  rewrite <- (take_drop l (take (S r) ts)), List.filter_app, take_take.
  replace (min l (S r)) with l by lia.
  rewrite filter_none, filter_all; simpl.
  - rewrite length_drop, length_take. apply lookup_lt_Some in Hr. lia.
  - intros x Hx. apply list_elem_of_lookup in Hx as (k & Hk).
    rewrite lookup_drop in Hk. apply lookup_take_Some in Hk as (Hk & Hb).
    apply andb_true_intro. split; apply Z.leb_le.
    + pose proof (Asc l (l + k)%nat y0 x ltac:(lia) Hl0 Hk). lia.
    + apply (Asc (l + k)%nat r x t); [lia|done..].
  - intros x Hx. apply elem_of_take in Hx as (j & Hj & Hb).
    apply andb_false_intro1. apply Z.leb_gt. by apply (Hout j).
Qed.

(** The outer loop: it ends without an exception, adds one pair per
    position, keeps [left] at or before [right], and on an ascending list
    counts the window [[t - w, t]] among the positions up to [right]. *)
Lemma window_loop_spec (ts : list Z) (w : Z) :
  0 <= w ->
  forall n right left counts,
    (right + n = length ts)%nat -> (left <= right)%nat ->
    exists res,
      window_loop (seq right n) ts w left counts = Ok (counts ++ res)
      /\ length res = n
      /\ forall i t c, res !! i = Some (t, c) ->
           ts !! (right + i)%nat = Some t
           /\ 1 <= c <= Z.of_nat (right + i) + 1
           /\ (ascending ts ->
               (forall j y t0, (j < left)%nat -> ts !! j = Some y ->
                  ts !! right = Some t0 -> y < t0 - timedelta_minutes w) ->
               c = count_within (t - timedelta_minutes w) t (take (S (right + i)) ts)).
Proof.
  intros Hw n. pose proof (timedelta_minutes_nonneg w Hw) as HW.
  induction n as [|n IH]; intros right left counts Hlen Hlr.
  - exists []. simpl. rewrite app_nil_r. repeat split; try done.
  - destruct (lookup_lt_is_Some_2 ts right ltac:(lia)) as [t Ht].
    destruct (advance_left_spec ts (t - timedelta_minutes w) right t Ht ltac:(lia)
                (length ts) left Hlr ltac:(lia)) as (left' & Ea & Bl & Pl & Ql).
    destruct (IH (S right) left' (counts ++ [(t, Z.of_nat right - Z.of_nat left' + 1)])
                ltac:(lia) ltac:(lia)) as (res & Er & Lr & Pr).
    exists ((t, Z.of_nat right - Z.of_nat left' + 1) :: res).
    split; [|split].
    + cbn [seq window_loop]. unfold window_body.
      rewrite (proj2 (getitem_Ok ts right t) Ht). simpl. rewrite Ea. simpl.
      rewrite Er, <- app_assoc. reflexivity.
    + simpl. by rewrite Lr.
    + intros [|i] t' c Hi.
      * injection Hi as <- <-. rewrite Nat.add_0_r.
        split; [done|]. split; [lia|].
        intros Asc Inv. symmetry. apply (count_within_window ts _ t left' right); try done; [lia|].
        intros j y Hj Ey. destruct (decide (j < left)%nat).
        -- by apply (Inv j y t).
        -- apply (Ql j y); [lia|done].
      * simpl in Hi. destruct (Pr i t' c Hi) as (Et & Bc & Cc).
        replace (right + S i)%nat with (S right + i)%nat by lia.
        split; [done|]. split; [lia|].
        intros Asc Inv. apply Cc; [done|].
        intros j y t1 Hj Ey Et1.
        pose proof (Asc right (S right) t t1 ltac:(lia) Ht Et1).
        destruct (decide (j < left)%nat).
        -- pose proof (Inv j y t ltac:(done) Ey Ht). lia.
        -- pose proof (Ql j y ltac:(lia) Ey). lia.
Qed.

(** ** Insertion-ordered dictionaries *)

Section ordered_dict_facts.
Context {K V : Type} `{EqDecision K}.
Implicit Types (d : list (K * V)) (k : K) (f : V -> V).

Lemma od_lookup_None k d : od_lookup k d = None <-> k ∉ d.*1.
Proof.
  induction d as [|[k' v] d IH]; simpl.
  - split; [intros _; apply not_elem_of_nil | done].
  - rewrite not_elem_of_cons. destruct (decide (k = k')); [split; [done | tauto]|].
    rewrite IH. tauto.
Qed.

Lemma od_lookup_elem_of k v d : od_lookup k d = Some v -> (k, v) ∈ d.
Proof.
  induction d as [|[k' v'] d IH]; simpl; [done|].
  destruct (decide (k = k')) as [->|N].
  - intros [= ->]. constructor.
  - intros E. apply list_elem_of_further, IH, E.
Qed.

Lemma od_elem_of_lookup k v d : NoDup d.*1 -> (k, v) ∈ d -> od_lookup k d = Some v.
Proof.
  induction d as [|[k' v'] d IH]; simpl; intros ND Hin.
  - by apply elem_of_nil in Hin.
  - apply NoDup_cons in ND as [Hk ND]. apply elem_of_cons in Hin as [[= -> ->]|Hin].
    + by rewrite decide_True.
    + destruct (decide (k = k')) as [->|N]; [|by apply IH].
      exfalso. apply Hk. apply list_elem_of_fmap. by exists (k', v).
Qed.

Lemma od_update_keys k f (d0 : V) d :
  (od_update k f d0 d).*1 = if decide (k ∈ d.*1) then d.*1 else d.*1 ++ [k].
Proof.
  induction d as [|[k' v] d IH].
  - destruct (decide (k ∈ ([] : list (K * V)).*1)) as [I|I]; [|done].
    by apply elem_of_nil in I.
  - cbn [od_update]. destruct (decide (k = k')) as [->|N].
    + destruct (decide (k' ∈ ((k', v) :: d).*1)) as [I|I]; [done|].
      exfalso. apply I. constructor.
    + rewrite !fmap_cons, IH. cbn [fst].
      destruct (decide (k ∈ d.*1)) as [I|I];
        destruct (decide (k ∈ k' :: d.*1)) as [J|J].
      * done.
      * exfalso. apply J. by constructor.
      * exfalso. apply elem_of_cons in J as [J|J]; [by apply N | by apply I].
      * done.
Qed.

Lemma od_update_NoDup k f (d0 : V) d : NoDup d.*1 -> NoDup (od_update k f d0 d).*1.
Proof.
  intros ND. rewrite od_update_keys. destruct (decide (k ∈ d.*1)); [done|].
  apply NoDup_app. split; [done|]. split; [|apply NoDup_singleton].
  intros x Hx Hk. apply list_elem_of_singleton in Hk as ->. contradiction.
Qed.

Lemma od_lookup_update k' k f (d0 : V) d :
  od_lookup k' (od_update k f d0 d) =
    if decide (k' = k) then Some (f (default d0 (od_lookup k d)))
    else od_lookup k' d.
Proof.
  induction d as [|[k0 v] d IH]; simpl.
  - destruct (decide (k' = k)); reflexivity.
  - destruct (decide (k = k0)) as [->|N]; simpl.
    + destruct (decide (k' = k0)); reflexivity.
    + rewrite IH. destruct (decide (k' = k0)) as [->|N'].
      * rewrite decide_False; [done | congruence].
      * reflexivity.
Qed.
End ordered_dict_facts.

(** The loops that fill a dictionary record by record. *)
Section dictionary_loops.
Context {A K V : Type} `{EqDecision K}.
Context (key : A -> K) (step : A -> V -> V) (d0 : V).

Let fill (xs : list A) (d : list (K * V)) : list (K * V) :=
  fold_left (fun d x => od_update (key x) (step x) d0 d) xs d.

Let keyed (k : K) (xs : list A) : list A :=
  List.filter (fun x => bool_decide (key x = k)) xs.

Lemma fill_NoDup xs d : NoDup d.*1 -> NoDup (fill xs d).*1.
Proof.
  revert d. induction xs as [|x xs IH]; intros d ND; simpl; [done|].
  apply IH, od_update_NoDup, ND.
Qed.

Lemma fill_lookup k xs d :
  od_lookup k (fill xs d) =
    match keyed k xs with
    | [] => od_lookup k d
    | sub => Some (fold_left (fun v x => step x v) sub (default d0 (od_lookup k d)))
    end.
Proof.
  revert d. induction xs as [|x xs IH]; intros d; simpl; [done|].
  unfold fill in IH. rewrite IH, od_lookup_update. unfold keyed in *.
  destruct (decide (k = key x)) as [->|N].
  - rewrite bool_decide_eq_true_2 by done. simpl.
    destruct (List.filter _ xs); reflexivity.
  - rewrite bool_decide_eq_false_2 by congruence. reflexivity.
Qed.

(** The entries of the filled dictionary: one per key that occurs, with
    the records of that key folded in input order. *)
Lemma fill_elem_of k v xs :
  (k, v) ∈ fill xs [] <->
  keyed k xs <> [] /\ v = fold_left (fun v x => step x v) (keyed k xs) d0.
Proof.
  split.
  - intros Hin. apply od_elem_of_lookup in Hin; [|apply fill_NoDup, NoDup_nil_2].
    rewrite fill_lookup in Hin. simpl in Hin.
    destruct (keyed k xs); [done|]. injection Hin as <-. done.
  - intros [Hne ->]. apply od_lookup_elem_of. rewrite fill_lookup. simpl.
    destruct (keyed k xs); done.
Qed.
End dictionary_loops.

(** ** Sorting *)

Section sorting_facts.
Context {A : Type} (le : A -> A -> bool).

Lemma insert_sorted_Permutation (x : A) (l : list A) : insert_sorted le x l ≡ₚ x :: l.
Proof.
  induction l as [|y l IH]; simpl; [done|].
  destruct (le x y); [done|]. rewrite IH. apply Permutation_swap.
Qed.

Lemma py_sorted_Permutation (l : list A) : py_sorted le l ≡ₚ l.
Proof.
  induction l as [|x l IH]; simpl; [done|].
  rewrite insert_sorted_Permutation. by apply Permutation_skip.
Qed.

Lemma py_sorted_length (l : list A) : length (py_sorted le l) = length l.
Proof. by rewrite py_sorted_Permutation. Qed.

Lemma py_sorted_nil_inv (l : list A) : py_sorted le l = [] -> l = [].
Proof.
  intros E. apply Permutation_nil. by rewrite <- E, py_sorted_Permutation.
Qed.

Hypothesis le_total : forall a b, le a b = true \/ le b a = true.

Lemma insert_sorted_Sorted (x : A) (l : list A) :
  Sorted (fun a b => le a b = true) l ->
  Sorted (fun a b => le a b = true) (insert_sorted le x l).
Proof.
  induction 1 as [|y l S IH Hd]; simpl; [by repeat constructor|].
  destruct (le x y) eqn:E.
  - constructor; [by constructor | by constructor].
  - constructor; [exact IH|].
    destruct Hd as [|z l Hz]; simpl.
    + constructor. destruct (le_total x y); congruence.
    + destruct (le x z); constructor; [|done].
      destruct (le_total x y); congruence.
Qed.

Lemma py_sorted_Sorted (l : list A) :
  Sorted (fun a b => le a b = true) (py_sorted le l).
Proof.
  induction l as [|x l IH]; simpl; [constructor|]. by apply insert_sorted_Sorted.
Qed.
End sorting_facts.

Lemma StronglySorted_lookup {A} (R : relation A) (l : list A) (i j : nat) (x y : A) :
  StronglySorted R l -> (i < j)%nat -> l !! i = Some x -> l !! j = Some y -> R x y.
Proof.
  intros S. revert i j. induction S as [|a l S IH Hall]; intros i j Hij Hi Hj.
  - done.
  - destruct j as [|j]; [lia|]. simpl in Hj. destruct i as [|i]; simpl in Hi.
    + injection Hi as ->. rewrite Forall_forall in Hall.
      apply Hall. by eapply list_elem_of_lookup_2.
    + apply (IH i j); [lia|done..].
Qed.

Lemma Sorted_leb_ascending (l : list Z) :
  Sorted (fun a b => (a <=? b) = true) l -> ascending l.
Proof.
  intros S. apply Sorted_StronglySorted in S.
  2: { intros a b c Hab Hbc. apply Z.leb_le in Hab, Hbc. apply Z.leb_le. lia. }
  intros i j x y Hij Hi Hj. destruct (decide (i = j)) as [->|N].
  - rewrite Hi in Hj. injection Hj as ->. lia.
  - apply Z.leb_le.
    apply (StronglySorted_lookup (fun a b => (a <=? b) = true) l i j x y); [done|lia|done..].
Qed.

Lemma py_sorted_ascending (l : list Z) : ascending (py_sorted Z.leb l).
Proof.
  apply Sorted_leb_ascending, py_sorted_Sorted.
  intros a b. rewrite !Z.leb_le. lia.
Qed.


Lemma strictly_ascending_ascending (ts : list Z) : strictly_ascending ts -> ascending ts.
Proof.
  intros Hs i j x y Hij Hi Hj. destruct (decide (i = j)) as [->|N].
  - rewrite Hi in Hj. injection Hj as ->. lia.
  - pose proof (Hs i j x y ltac:(lia) Hi Hj). lia.
Qed.

Lemma count_within_strict (ts : list Z) (lo t : Z) (r : nat) :
  strictly_ascending ts -> ts !! r = Some t ->
  count_within lo t ts = count_within lo t (take (S r) ts).
Proof.
  intros Hs Hr. unfold count_within. f_equal.
  transitivity (List.filter (fun x => (lo <=? x) && (x <=? t))
                  (take (S r) ts ++ drop (S r) ts)); [by rewrite take_drop|].
  rewrite List.filter_app, (filter_none _ (drop (S r) ts)); [by rewrite app_nil_r|].
  intros x Hx. apply list_elem_of_lookup in Hx as (k & Hk).
  rewrite lookup_drop in Hk.
  pose proof (Hs r (S r + k)%nat t x ltac:(lia) Hr Hk).
  apply andb_false_intro2. apply Z.leb_gt. lia.
Qed.

(** Within the ranges of [timedelta] and [datetime] the bounded loop is the
    loop on all of [Z]. *)
Lemma Bounded_window_body_eq (timestamps : list Z) (w : Z) (left right : nat) :
  timedelta_min_minutes <= w <= timedelta_max_minutes ->
  (forall t, t ∈ timestamps ->
     datetime_min <= t - timedelta_minutes w <= datetime_max) ->
  Bounded.window_body timestamps w left right = window_body timestamps w left right.
Proof.
  intros Hw Hr. unfold Bounded.window_body, window_body, getitem.
  destruct (timestamps !! right) as [t|] eqn:Et; [|done]. rewrite !bind_Ok.
  unfold Bounded.timedelta_minutes.
  destruct (Z.leb_spec timedelta_min_minutes w), (Z.leb_spec w timedelta_max_minutes);
    try lia.
  cbn [andb]. rewrite bind_Ok. unfold Bounded.datetime_sub.
  pose proof (Hr t (list_elem_of_lookup_2 _ _ _ Et)) as Ht.
  unfold timedelta_minutes in Ht.
  destruct (Z.leb_spec datetime_min (t - w * 60000000)),
    (Z.leb_spec (t - w * 60000000) datetime_max); try lia.
  reflexivity.
Qed.

Lemma Bounded_sliding_window_counts_eq (timestamps : list Z) (w : Z) :
  timedelta_min_minutes <= w <= timedelta_max_minutes ->
  (forall t, t ∈ timestamps ->
     datetime_min <= t - timedelta_minutes w <= datetime_max) ->
  Bounded.sliding_window_counts timestamps w = sliding_window_counts timestamps w.
Proof.
  intros Hw Hr. unfold Bounded.sliding_window_counts, sliding_window_counts.
  assert (forall rights left counts,
            Bounded.window_loop rights timestamps w left counts
            = window_loop rights timestamps w left counts) as General; [|apply General].
  induction rights as [|r rights IH]; intros left counts; [done|].
  cbn [Bounded.window_loop window_loop]. rewrite Bounded_window_body_eq by done.
  destruct (window_body timestamps w left r) as [[left' entry]|e]; [|done].
  rewrite !bind_Ok. apply IH.
Qed.

(** Before [datetime.min] there is no window: the first instant whose
    window would start there ends the loop with [OverflowError]. *)
Lemma sliding_window_counts_before_datetime_min (t : Z) (rest : list Z) (w : Z) :
  0 <= w <= timedelta_max_minutes -> t - timedelta_minutes w < datetime_min ->
  Bounded.sliding_window_counts (t :: rest) w = Raise OverflowError.
Proof.
  intros Hw Ht. unfold Bounded.sliding_window_counts. cbn [length seq Bounded.window_loop].
  unfold Bounded.window_body, getitem. cbn [lookup list_lookup]. rewrite bind_Ok.
  unfold Bounded.timedelta_minutes.
  destruct (Z.leb_spec timedelta_min_minutes w), (Z.leb_spec w timedelta_max_minutes);
    try (unfold timedelta_min_minutes in *; lia).
  cbn [andb]. rewrite bind_Ok. unfold Bounded.datetime_sub. unfold timedelta_minutes in Ht.
  destruct (Z.leb_spec datetime_min (t - w * 60000000)); [lia|]. reflexivity.
Qed.

(** C10 (as amended).  For a window of [w >= 0] minutes that a [timedelta]
    can hold, and instants whose window does not start before
    [datetime.min], [sliding_window_counts] ends without an exception, the
    left pointer never passing the right one: it returns one pair per
    position, with the instant of the position and a count between 1 and
    the position's rank.  On an ascending list the count at a position is
    the number of instants in [[t - w, t]] among the positions up to it; on
    a strictly ascending list that is the number of instants of the whole
    list in [[t - w, t]]. *)
Theorem sliding_window_counts_spec (timestamps : list Z) (w : Z) :
  0 <= w <= timedelta_max_minutes ->
  (forall t, t ∈ timestamps -> datetime_min + timedelta_minutes w <= t <= datetime_max) ->
  exists counts,
    Bounded.sliding_window_counts timestamps w = Ok counts
    /\ length counts = length timestamps
    /\ forall right t c, counts !! right = Some (t, c) ->
         timestamps !! right = Some t
         /\ 1 <= c <= Z.of_nat right + 1
         /\ (ascending timestamps ->
             c = count_within (t - timedelta_minutes w) t (take (S right) timestamps))
         /\ (strictly_ascending timestamps ->
             c = count_within (t - timedelta_minutes w) t timestamps).
Proof.
  intros Hw Hr.
  rewrite Bounded_sliding_window_counts_eq.
  2: { unfold timedelta_min_minutes. lia. }
  2: { intros t Ht. specialize (Hr t Ht).
       pose proof (timedelta_minutes_nonneg w ltac:(lia)). lia. }
  destruct (window_loop_spec timestamps w ltac:(lia) (length timestamps) 0 0 [])
    as (res & E & L & P); [lia..|].
  exists res. split; [exact E|]. split; [exact L|].
  intros right t c Hc. destruct (P right t c Hc) as (Ht & Bc & Cc). simpl in *.
  split; [done|]. split; [done|]. split.
  - intros Asc. apply Cc; [done|]. intros j y t0 Hj. lia.
  - intros Hs. rewrite (count_within_strict timestamps _ t right Hs Ht).
    apply Cc; [by apply strictly_ascending_ascending|]. intros j y t0 Hj. lia.
Qed.

Lemma sliding_window_counts_spec_witness :
  exists counts, Bounded.sliding_window_counts [0; 60000000; 400000000] 5 = Ok counts.
Proof.
  destruct (sliding_window_counts_spec [0; 60000000; 400000000] 5) as (counts & E & _).
  - unfold timedelta_max_minutes. lia.
  - intros t Ht. unfold datetime_min, datetime_max, timedelta_minutes.
    repeat (apply elem_of_cons in Ht as [->|Ht]; [lia|]). by apply elem_of_nil in Ht.
  - exists counts. exact E.
Defined.

(** C10, as stated, fails on an ascending list with a repeated instant: the
    first of two equal instants is paired with 1, while two instants lie in
    its window. *)
Lemma sliding_window_counts_repeated_instant :
  ~ (forall timestamps w counts t c,
       ascending timestamps -> 0 <= w ->
       Bounded.sliding_window_counts timestamps w = Ok counts -> (t, c) ∈ counts ->
       c = count_within (t - timedelta_minutes w) t timestamps).
Proof.
  intros C.
  specialize (C [0; 0] 5 [(0, 1); (0, 2)] 0 1).
  assert (ascending [0; 0]) as Asc.
  { intros [|[|i]] [|[|j]] x y _ Hi Hj; simpl in *; try discriminate;
      injection Hi as <-; injection Hj as <-; lia. }
  specialize (C Asc ltac:(lia) eq_refl ltac:(constructor)).
  vm_compute in C. discriminate C.
Qed.

(** The window counts of a sorted list, as the pipeline uses them. *)
Lemma sliding_window_counts_sorted (l : list Z) (w : Z) :
  0 <= w ->
  exists counts,
    sliding_window_counts (py_sorted Z.leb l) w = Ok counts
    /\ length counts = length l
    /\ forall right t c, counts !! right = Some (t, c) ->
         py_sorted Z.leb l !! right = Some t
         /\ 1 <= c <= Z.of_nat right + 1
         /\ c = count_within (t - timedelta_minutes w) t (take (S right) (py_sorted Z.leb l)).
Proof.
  intros Hw.
  destruct (window_loop_spec (py_sorted Z.leb l) w Hw (length (py_sorted Z.leb l)) 0 0 [])
    as (res & E & L & P); [lia..|].
  exists res. split; [exact E|]. split; [by rewrite L, py_sorted_length|].
  intros right t c Hc. destruct (P right t c Hc) as (Ht & Bc & Cc). simpl in *.
  split; [done|]. split; [done|].
  apply Cc; [apply py_sorted_ascending|]. intros j y t0 Hj. lia.
Qed.

(** ** Loops over outcomes *)

Lemma for_extend_spec {A B} (body : A -> outcome (list B)) (R : A -> list B -> Prop)
    (xs : list A) :
  (forall x, x ∈ xs -> exists ys, body x = Ok ys /\ R x ys) ->
  exists yss, for_extend body xs = Ok (concat yss) /\ Forall2 R xs yss.
Proof.
  induction xs as [|x xs IH]; intros P.
  - exists []. split; [reflexivity | constructor].
  - destruct (P x) as (ys & E & Hr); [constructor|].
    destruct IH as (yss & E' & F); [intros y Hy; apply P; by constructor|].
    exists (ys :: yss). split; [|by constructor].
    simpl. rewrite E. simpl. rewrite E'. reflexivity.
Qed.

Lemma for_each_spec {A B} (body : A -> outcome B) (R : A -> B -> Prop) (xs : list A) :
  (forall x, x ∈ xs -> exists y, body x = Ok y /\ R x y) ->
  exists ys, for_each body xs = Ok ys /\ Forall2 R xs ys.
Proof.
  induction xs as [|x xs IH]; intros P.
  - exists []. split; [reflexivity | constructor].
  - destruct (P x) as (y & E & Hr); [constructor|].
    destruct IH as (ys & E' & F); [intros z Hz; apply P; by constructor|].
    exists (y :: ys). split; [|by constructor].
    simpl. rewrite E. simpl. rewrite E'. reflexivity.
Qed.

Lemma for_extend_Forall {A B} (body : A -> outcome (list B)) (P : B -> Prop)
    (xs : list A) (zs : list B) :
  (forall x ys, x ∈ xs -> body x = Ok ys -> forall y, y ∈ ys -> P y) ->
  for_extend body xs = Ok zs -> forall z, z ∈ zs -> P z.
Proof.
  revert zs. induction xs as [|x xs IH]; intros zs H E z Hz.
  - injection E as <-. by apply elem_of_nil in Hz.
  - simpl in E. apply bind_Ok_inv in E as (ys & Ey & E).
    apply bind_Ok_inv in E as (rest & Er & E). injection E as <-.
    apply elem_of_app in Hz as [Hz|Hz].
    + by apply (H x ys ltac:(constructor) Ey).
    + apply (IH rest); [|done..]. intros x' ys' Hx'. apply H. by constructor.
Qed.

(** A loop over the entries of a dictionary whose body reports findings
    about the entry's own key only: the findings about a key are those of
    its entry. *)
Lemma for_extend_by_key {K V B} `{EqDecision K} (body : K * V -> outcome (list B))
    (sel : K -> B -> bool) (items : list (K * V)) :
  NoDup items.*1 ->
  (forall k v, (k, v) ∈ items ->
     exists ys, body (k, v) = Ok ys
       /\ forall y k', y ∈ ys -> sel k' y = bool_decide (k' = k)) ->
  exists zs,
    for_extend body items = Ok zs
    /\ forall k, List.filter (sel k) zs =
         match od_lookup k items with
         | Some v => findings (body (k, v))
         | None => []
         end.
Proof.
  induction items as [|[k0 v0] items IH]; intros ND P.
  - exists []. split; [reflexivity|]. intros k. reflexivity.
  - rewrite fmap_cons in ND. apply NoDup_cons in ND as [Hk0 ND]. cbn [fst] in Hk0.
    destruct (P k0 v0) as (ys & E & Hs); [constructor|].
    destruct IH as (zs & E' & F); [done | intros k v Hin; apply P; by constructor|].
    exists (ys ++ zs). split.
    { simpl. rewrite E. simpl. rewrite E'. reflexivity. }
    intros k. rewrite List.filter_app, F. simpl.
    destruct (decide (k = k0)) as [->|N].
    + rewrite E. simpl.
      rewrite filter_all by (intros y Hy; rewrite (Hs y k0 Hy); by apply bool_decide_eq_true_2).
      apply od_lookup_None in Hk0. rewrite Hk0. by rewrite app_nil_r.
    + rewrite filter_none; [done|].
      intros y Hy. rewrite (Hs y k Hy). by apply bool_decide_eq_false_2.
Qed.

(** ** The components end normally *)

Lemma len_nonneg {A} (l : list A) : 0 <= len l.
Proof. unfold len. lia. Qed.

Lemma len_pos {A} (l : list A) : l <> [] -> 0 < len l.
Proof. destruct l; [done|]. unfold len. simpl. lia. Qed.

Lemma len_zero {A} (l : list A) : len l = 0 -> l = [].
Proof. destruct l; [done|]. unfold len. simpl. lia. Qed.

Lemma py_max2_ge (a b : Q) : (a <= py_max2 a b)%Q.
Proof.
  unfold py_max2. destruct (py_gt b a) eqn:E.
  - apply py_gt_spec in E. by apply Qlt_le_weak.
  - apply Qle_refl.
Qed.

Lemma py_int_of_float_floor (x : Q) : (0 <= x)%Q -> py_int_of_float x = Qfloor x.
Proof.
  intros Hx. unfold py_int_of_float. destruct x as [n d]. simpl.
  unfold Qle in Hx. simpl in Hx. apply Z.quot_div_nonneg; lia.
Qed.

Lemma fold_left_snoc_map {A B} (g : A -> B) (xs : list A) (acc : list B) :
  fold_left (fun v x => v ++ [g x]) xs acc = acc ++ map g xs.
Proof.
  revert acc. induction xs as [|x xs IH]; intros acc; simpl.
  - by rewrite app_nil_r.
  - by rewrite IH, <- app_assoc.
Qed.

Lemma fold_left_guarded {A S} (p : A -> bool) (g : S -> A -> S) (xs : list A) (s : S) :
  fold_left (fun s x => if p x then g s x else s) xs s
  = fold_left g (List.filter p xs) s.
Proof.
  revert s. induction xs as [|x xs IH]; intros s; simpl; [done|].
  destruct (p x); simpl; apply IH.
Qed.

Lemma endpoint_error_rate_Ok (s : EndpointStat) :
  exists r, endpoint_error_rate s = Ok r.
Proof.
  unfold endpoint_error_rate. destruct (Z.eqb_spec (es_request_count s) 0) as [E|N].
  - eauto.
  - rewrite py_div_int_ok by done. simpl. eauto.
Qed.

Lemma _detect_performance_issues_Ok (stats : list EndpointStat) :
  exists issues, _detect_performance_issues stats = Ok issues.
Proof.
  destruct (for_extend_spec issues_of (fun _ _ => True) stats) as (yss & E & _).
  - intros s _. unfold issues_of. destruct (endpoint_error_rate_Ok s) as (r & ->).
    simpl. eauto.
  - unfold _detect_performance_issues. eauto.
Qed.

Lemma _recommendations_Ok (sm : Summary) (stats : list EndpointStat) :
  exists recs, _recommendations sm stats = Ok recs.
Proof.
  destruct (for_extend_spec recommendations_of (fun _ _ => True) stats) as (yss & E & _).
  - intros s _. unfold recommendations_of. destruct (endpoint_error_rate_Ok s) as (r & ->).
    simpl. eauto.
  - unfold _recommendations. eauto.
Qed.

Lemma most_common_1 {K} (counter : list (K * Z)) :
  counter <> [] ->
  exists top, most_common 1 counter !! 0%nat = Some top
    /\ top ∈ counter /\ forall x, x ∈ counter -> x.2 <= top.2.
Proof.
  intros Hne. unfold most_common.
  set (le := fun a b : K * Z => b.2 <=? a.2).
  pose proof (py_sorted_Permutation le counter) as P.
  pose proof (py_sorted_Sorted le) as S.
  specialize (S ltac:(intros a b; unfold le; rewrite !Z.leb_le; lia) counter).
  destruct (py_sorted le counter) as [|top rest] eqn:E.
  { apply py_sorted_nil_inv in E. contradiction. }
  exists top. split; [reflexivity|]. split.
  - rewrite <- P. constructor.
  - intros x Hx. rewrite <- P in Hx. apply Sorted_StronglySorted in S.
    2: { intros a b c Hab Hbc. unfold le in *. apply Z.leb_le in Hab, Hbc.
         apply Z.leb_le. lia. }
    apply elem_of_cons in Hx as [->|Hx]; [lia|].
    apply StronglySorted_inv in S as [_ F]. rewrite Forall_forall in F.
    specialize (F x Hx). unfold le in F. by apply Z.leb_le in F.
Qed.

Lemma _most_common_status_Ok (counter : list (Z * Z)) :
  exists st, _most_common_status counter = Ok st.
Proof.
  destruct counter as [|c counter]; [simpl; eauto|].
  destruct (most_common_1 (c :: counter)) as (top & E & _); [done|].
  unfold _most_common_status, getitem. rewrite E. simpl. eauto.
Qed.

Lemma endpoint_stat_of_Ok (item : string * EndpointAggregate) :
  exists st, endpoint_stat_of item = Ok st /\ es_endpoint st = item.1.
Proof.
  destruct item as [ep s]. unfold endpoint_stat_of.
  destruct (_most_common_status_Ok (agg_status_counter s)) as (st & Es).
  destruct (Z.eqb_spec (agg_count s) 0) as [E|N]; simpl.
  - rewrite Es. simpl. eauto.
  - rewrite py_div_int_ok by done. simpl. rewrite Es. simpl. eauto.
Qed.

Lemma _calc_endpoint_stats_Ok (valid_logs : list CanonicalRequest) :
  exists stats, _calc_endpoint_stats valid_logs = Ok stats.
Proof.
  unfold _calc_endpoint_stats.
  destruct (for_each_spec endpoint_stat_of (fun _ _ => True)
              (aggregate_by_endpoint valid_logs)) as (ys & E & _).
  - intros x _. destruct (endpoint_stat_of_Ok x) as (st & -> & _). eauto.
  - rewrite E. simpl. eauto.
Qed.

Lemma fold_left_min_spec (xs : list Z) (x : Z) :
  (fold_left Z.min xs x = x \/ fold_left Z.min xs x ∈ xs)
  /\ fold_left Z.min xs x <= x
  /\ forall y, y ∈ xs -> fold_left Z.min xs x <= y.
Proof.
  revert x. induction xs as [|a xs IH]; intros x; simpl.
  - split; [by left|]. split; [lia|]. intros y Hy. by apply elem_of_nil in Hy.
  - destruct (IH (Z.min x a)) as (M & L & F). split; [|split].
    + destruct M as [M|M]; [|right; by constructor].
      rewrite M. destruct (Z.min_spec x a) as [[_ ->]|[_ ->]]; [by left | right; constructor].
    + lia.
    + intros y Hy. apply elem_of_cons in Hy as [->|Hy]; [lia | by apply F].
Qed.

Lemma fold_left_max_spec (xs : list Z) (x : Z) :
  (fold_left Z.max xs x = x \/ fold_left Z.max xs x ∈ xs)
  /\ x <= fold_left Z.max xs x
  /\ forall y, y ∈ xs -> y <= fold_left Z.max xs x.
Proof.
  revert x. induction xs as [|a xs IH]; intros x; simpl.
  - split; [by left|]. split; [lia|]. intros y Hy. by apply elem_of_nil in Hy.
  - destruct (IH (Z.max x a)) as (M & L & F). split; [|split].
    + destruct M as [M|M]; [|right; by constructor].
      rewrite M. destruct (Z.max_spec x a) as [[_ ->]|[_ ->]]; [right; constructor | by left].
    + lia.
    + intros y Hy. apply elem_of_cons in Hy as [->|Hy]; [lia | by apply F].
Qed.

Lemma py_min_Ok (xs : list Z) :
  xs <> [] -> exists m, py_min xs = Ok m /\ m ∈ xs /\ forall y, y ∈ xs -> m <= y.
Proof.
  destruct xs as [|x xs]; [done|]. intros _.
  destruct (fold_left_min_spec xs x) as (M & L & F).
  exists (fold_left Z.min xs x). split; [reflexivity|]. split.
  - destruct M as [->|M]; [constructor | by constructor].
  - intros y Hy. apply elem_of_cons in Hy as [->|Hy]; [done | by apply F].
Qed.

Lemma py_max_Ok (xs : list Z) :
  xs <> [] -> exists m, py_max xs = Ok m /\ m ∈ xs /\ forall y, y ∈ xs -> y <= m.
Proof.
  destruct xs as [|x xs]; [done|]. intros _.
  destruct (fold_left_max_spec xs x) as (M & L & F).
  exists (fold_left Z.max xs x). split; [reflexivity|]. split.
  - destruct M as [->|M]; [constructor | by constructor].
  - intros y Hy. apply elem_of_cons in Hy as [->|Hy]; [done | by apply F].
Qed.

Lemma _calc_summary_Ok (valid_logs : list CanonicalRequest) :
  exists sm, _calc_summary valid_logs = Ok sm /\ total_requests sm = len valid_logs.
Proof.
  unfold _calc_summary. destruct (Z.eqb_spec (len valid_logs) 0) as [E|N].
  - rewrite E. eauto.
  - assert (map timestamp valid_logs <> []) as Hne.
    { intros E. apply N. destruct valid_logs; [done | discriminate E]. }
    destruct (py_min_Ok _ Hne) as (lo & -> & _).
    destruct (py_max_Ok _ Hne) as (hi & -> & _).
    rewrite !bind_Ok, !py_div_int_ok by done.
    rewrite !bind_Ok. eauto.
Qed.

Lemma endpoint_cost_of_Ok (item : string * (Z * Q)) :
  exists c, endpoint_cost_of item = Ok c.
Proof.
  destruct item as [ep [count total]]. unfold endpoint_cost_of.
  destruct (Z.eqb_spec count 0) as [E|N]; simpl; [eauto|].
  rewrite py_div_int_ok by done. simpl. eauto.
Qed.

Lemma _cost_analysis_Ok (valid_logs : list CanonicalRequest) (stats : list EndpointStat) :
  exists c, _cost_analysis valid_logs stats = Ok c
    /\ total_cost_usd c =
         py_round
           (py_add
              (py_add (py_mul (py_float (len valid_logs)) COST_PER_REQUEST_USD)
                 (py_sum (map (fun l => py_mul (py_float (response_time_ms l))
                                          COST_PER_MS_EXECUTION_USD) valid_logs)))
              (py_sum (map (fun l => _memory_cost (response_size_bytes l)) valid_logs))) 6
    /\ request_costs (cost_breakdown c) =
         py_round (py_mul (py_float (len valid_logs)) COST_PER_REQUEST_USD) 6
    /\ execution_costs (cost_breakdown c) =
         py_round (py_sum (map (fun l => py_mul (py_float (response_time_ms l))
                                           COST_PER_MS_EXECUTION_USD) valid_logs)) 6
    /\ memory_costs (cost_breakdown c) =
         py_round (py_sum (map (fun l => _memory_cost (response_size_bytes l)) valid_logs)) 6.
Proof.
  unfold _cost_analysis.
  match goal with |- context [for_each endpoint_cost_of ?items] =>
    destruct (for_each_spec endpoint_cost_of (fun _ _ => True) items) as (ys & E & _)
  end.
  - intros x _. destruct (endpoint_cost_of_Ok x) as (c & ->). eauto.
  - rewrite E. simpl. eexists. split; [reflexivity|]. simpl. auto.
Qed.

(** ** Anomaly detection, step by step *)

Lemma first_spike_findings (ep : string) (nr : Q) (counts : list (Z * Z)) (a : Anomaly) :
  a ∈ first_spike ep nr counts -> kind_of a = KSpike /\ anomaly_endpoint a = Some ep.
Proof.
  induction counts as [|[t c] counts IH]; simpl; [by intros ?%elem_of_nil|].
  destruct (_ && _); [|exact IH]. intros ->%list_elem_of_singleton. done.
Qed.

Lemma first_cluster_findings (ep : string) (counts : list (Z * Z)) (a : Anomaly) :
  a ∈ first_cluster ep counts -> kind_of a = KCluster /\ anomaly_endpoint a = Some ep.
Proof.
  induction counts as [|[t c] counts IH]; simpl; [by intros ?%elem_of_nil|].
  destruct (_ <=? _); [|exact IH]. intros ->%list_elem_of_singleton. done.
Qed.

Lemma is_finding_own (k : Kind) (ep ep' : string) (a : Anomaly) :
  kind_of a = k -> anomaly_endpoint a = Some ep ->
  is_finding k ep' a = bool_decide (ep' = ep).
Proof.
  intros Hk He. unfold is_finding, is_kind. rewrite Hk, He.
  assert (bool_decide (Some ep = Some ep') = bool_decide (ep' = ep)) as ->.
  { apply bool_decide_ext. split; [by intros [= ->] | by intros ->]. }
  by destruct k.
Qed.


Lemma is_kind_spec (k : Kind) (a : Anomaly) : is_kind k a = true <-> kind_of a = k.
Proof. unfold is_kind. destruct k, (kind_of a); split; done. Qed.

Lemma minutes_of_span (d : Z) :
  py_int_of_float (py_floordiv (total_seconds d) 60) = d / 60000000.
Proof.
  unfold py_floordiv, py_int_of_float, total_seconds.
  cbn [Qnum Qden inject_Z]. rewrite Z.quot_1_r.
  assert (Qred (d # 1000000) / 60 == d # 60000000)%Q as E.
  { rewrite Qred_correct. unfold Qdiv, Qmult, Qinv, Qeq. simpl. lia. }
  rewrite (Qfloor_comp _ _ E). reflexivity.
Qed.

Lemma spike_of_Ok (ep : string) (ts : list Z) :
  ts <> [] ->
  exists counts,
    sliding_window_counts (py_sorted Z.leb ts) REQUEST_SPIKE_WINDOW_MINUTES = Ok counts
    /\ spike_of (ep, ts) = Ok (first_spike ep (normal_rate (py_sorted Z.leb ts)) counts).
Proof.
  intros Hne.
  destruct (sliding_window_counts_sorted ts REQUEST_SPIKE_WINDOW_MINUTES) as (counts & E & _);
    [done|].
  exists counts. split; [exact E|].
  unfold spike_of, normal_rate, duration_minutes, span.
  destruct (py_sorted Z.leb ts) as [|x xs] eqn:Es.
  { apply py_sorted_nil_inv in Es. contradiction. }
  cbn [py_max py_min]. rewrite !bind_Ok, minutes_of_span.
  set (m := (fold_left Z.max xs x - fold_left Z.min xs x) / 60000000).
  assert (Z.max 1 (if m =? 0 then 1 else m) = Z.max 1 m) as ->.
  { destruct (Z.eqb_spec m 0); lia. }
  rewrite py_div_int_ok by done. rewrite bind_Ok.
  rewrite py_div_ok.
  2: { intros Z0. pose proof (py_max2_ge 1
         (Qred (py_float (Z.max 1 m) / py_float REQUEST_SPIKE_WINDOW_MINUTES))) as G.
       rewrite Z0 in G. by apply Qle_not_lt in G. }
  rewrite bind_Ok, E, bind_Ok. reflexivity.
Qed.

Lemma cluster_of_Ok (ep : string) (ts : list Z) :
  exists counts,
    sliding_window_counts (py_sorted Z.leb ts) ERROR_CLUSTER_WINDOW_MINUTES = Ok counts
    /\ cluster_of (ep, ts) = Ok (first_cluster ep counts).
Proof.
  destruct (sliding_window_counts_sorted ts ERROR_CLUSTER_WINDOW_MINUTES) as (counts & E & _);
    [done|].
  exists counts. split; [exact E|]. unfold cluster_of. rewrite E. reflexivity.
Qed.

Lemma recent_nonempty (n : Z) :
  5 <= n -> Z.max 0 (py_int_of_float (py_mul (py_float n) (9 # 10))) < n.
Proof.
  intros Hn.
  assert (py_mul (py_float n) (9 # 10) == inject_Z n * (9 # 10))%Q as E
    by apply Qred_correct.
  assert (0 < inject_Z n)%Q as Pn by (unfold Qlt; simpl; lia).
  assert (0 <= py_mul (py_float n) (9 # 10))%Q as P by (rewrite E; lra).
  rewrite py_int_of_float_floor by done.
  assert (Qfloor (py_mul (py_float n) (9 # 10)) < n); [|lia].
  rewrite Zlt_Qlt. eapply Qle_lt_trans; [apply Qfloor_le|]. rewrite E. lra.
Qed.

Lemma degradation_of_Ok (ep : string) (logs : list CanonicalRequest) :
  exists ys, degradation_of (ep, logs) = Ok ys
    /\ forall a, a ∈ ys -> kind_of a = KDegradation /\ anomaly_endpoint a = Some ep.
Proof.
  unfold degradation_of.
  set (sorted := py_sorted (fun a b => timestamp a <=? timestamp b) logs).
  destruct (Z.ltb_spec (len sorted) 5) as [Hlt|Hge].
  { exists []. split; [done|]. by intros a ?%elem_of_nil. }
  pose proof (recent_nonempty (len sorted) Hge) as Hr.
  set (k := Z.to_nat (Z.max 0 (py_int_of_float (py_mul (py_float (len sorted)) (9 # 10))))) in *.
  assert (len (drop k sorted) <> 0) as Hd.
  { unfold len in *. rewrite length_drop. lia. }
  cbv zeta. fold sorted. fold k.
  rewrite (py_div_int_ok _ _ Hd), bind_Ok.
  rewrite (py_div_int_ok _ (len sorted)) by lia. rewrite bind_Ok.
  destruct (_ && _).
  - eexists. split; [reflexivity|]. by intros a ->%list_elem_of_singleton.
  - exists []. split; [done|]. by intros a ?%elem_of_nil.
Qed.

(** The dictionary of the instants of each endpoint. *)
Lemma by_endpoint_lookup {B} (g : CanonicalRequest -> B) (ep : string)
    (valid_logs : list CanonicalRequest) :
  od_lookup ep
    (fold_left (fun d l => od_update (endpoint l) (fun v => v ++ [g l]) [] d) valid_logs [])
  = match requests_to ep valid_logs with
    | [] => None
    | sub => Some (map g sub)
    end.
Proof.
  rewrite (fill_lookup endpoint (fun l v => v ++ [g l]) []).
  unfold requests_to. destruct (List.filter _ valid_logs) as [|x sub]; [done|].
  exact (f_equal Some (fold_left_snoc_map g (x :: sub) [])).
Qed.

Lemma by_endpoint_elem_of {B} (g : CanonicalRequest -> B) (ep : string) (v : list B)
    (valid_logs : list CanonicalRequest) :
  (ep, v) ∈ fold_left (fun d l => od_update (endpoint l) (fun v => v ++ [g l]) [] d)
             valid_logs [] ->
  v <> [] /\ v = map g (requests_to ep valid_logs).
Proof.
  intros Hin. apply od_elem_of_lookup in Hin.
  2: { apply (fill_NoDup endpoint (fun l v => v ++ [g l]) []), NoDup_nil_2. }
  rewrite by_endpoint_lookup in Hin.
  destruct (requests_to ep valid_logs); [done|]. injection Hin as <-. done.
Qed.

Lemma request_spikes_spec (valid_logs : list CanonicalRequest) :
  exists spikes,
    request_spikes valid_logs = Ok spikes
    /\ (forall a, a ∈ spikes -> kind_of a = KSpike)
    /\ forall ep, List.filter (is_finding KSpike ep) spikes =
         first_spike ep (normal_rate (instants_of ep valid_logs))
           (findings (sliding_window_counts (instants_of ep valid_logs)
                        REQUEST_SPIKE_WINDOW_MINUTES)).
Proof.
  unfold request_spikes.
  match goal with |- context [for_extend spike_of ?d] => set (items := d) end.
  assert (NoDup items.*1) as ND.
  { apply (fill_NoDup endpoint (fun l v => v ++ [timestamp l]) []), NoDup_nil_2. }
  destruct (for_extend_by_key spike_of (is_finding KSpike) items ND) as (zs & E & F).
  { intros k v Hin. apply by_endpoint_elem_of in Hin as [Hne _].
    destruct (spike_of_Ok k v Hne) as (counts & _ & ->).
    eexists. split; [reflexivity|]. intros y k' Hy.
    apply first_spike_findings in Hy as [Hk He]. by apply is_finding_own. }
  exists zs. split; [exact E|]. split.
  - apply (for_extend_Forall spike_of _ items zs); [|exact E].
    intros [k v] ys Hin Ey y Hy. apply by_endpoint_elem_of in Hin as [Hne _].
    destruct (spike_of_Ok k v Hne) as (counts & _ & Es). rewrite Es in Ey.
    injection Ey as <-. by apply first_spike_findings in Hy as [Hk _].
  - intros ep. rewrite F. unfold items. rewrite by_endpoint_lookup. unfold instants_of.
    destruct (requests_to ep valid_logs) as [|x sub] eqn:Er; [reflexivity|].
    destruct (spike_of_Ok ep (map timestamp (x :: sub))) as (counts & Ec & ->); [done|].
    rewrite Ec. reflexivity.
Qed.

Lemma error_clusters_spec (valid_logs : list CanonicalRequest) :
  exists clusters,
    error_clusters valid_logs = Ok clusters
    /\ (forall a, a ∈ clusters -> kind_of a = KCluster)
    /\ forall ep, List.filter (is_finding KCluster ep) clusters =
         first_cluster ep
           (findings (sliding_window_counts (instants_of ep (errors_of valid_logs))
                        ERROR_CLUSTER_WINDOW_MINUTES)).
Proof.
  unfold error_clusters.
  rewrite (fold_left_guarded
             (fun l => (400 <=? status_code l) && (status_code l <=? 599))
             (fun d l => od_update (endpoint l) (fun ts => ts ++ [timestamp l]) [] d)).
  change (List.filter _ valid_logs) with (errors_of valid_logs).
  match goal with |- context [for_extend cluster_of ?d] => set (items := d) end.
  assert (NoDup items.*1) as ND.
  { apply (fill_NoDup endpoint (fun l v => v ++ [timestamp l]) []), NoDup_nil_2. }
  destruct (for_extend_by_key cluster_of (is_finding KCluster) items ND) as (zs & E & F).
  { intros k v Hin. destruct (cluster_of_Ok k v) as (counts & _ & ->).
    eexists. split; [reflexivity|]. intros y k' Hy.
    apply first_cluster_findings in Hy as [Hk He]. by apply is_finding_own. }
  exists zs. split; [exact E|]. split.
  - apply (for_extend_Forall cluster_of _ items zs); [|exact E].
    intros [k v] ys Hin Ey y Hy.
    destruct (cluster_of_Ok k v) as (counts & _ & Es). rewrite Es in Ey.
    injection Ey as <-. by apply first_cluster_findings in Hy as [Hk _].
  - intros ep. rewrite F. unfold items. rewrite by_endpoint_lookup. unfold instants_of.
    destruct (requests_to ep (errors_of valid_logs)) as [|x sub] eqn:Er; [reflexivity|].
    destruct (cluster_of_Ok ep (map timestamp (x :: sub))) as (counts & Ec & ->).
    rewrite Ec. reflexivity.
Qed.

Lemma response_time_degradations_spec (valid_logs : list CanonicalRequest) :
  exists ds,
    response_time_degradations valid_logs = Ok ds
    /\ forall a, a ∈ ds -> kind_of a = KDegradation.
Proof.
  unfold response_time_degradations.
  match goal with |- context [for_extend degradation_of ?d] => set (items := d) end.
  destruct (for_extend_spec degradation_of (fun _ _ => True) items) as (yss & E & _).
  { intros [k v] _. destruct (degradation_of_Ok k v) as (ys & -> & _). eauto. }
  eexists. split; [exact E|].
  apply (for_extend_Forall degradation_of _ items _); [|exact E].
  intros [k v] ys _ Ey y Hy. destruct (degradation_of_Ok k v) as (ys' & Es & P).
  rewrite Es in Ey. injection Ey as <-. by apply P in Hy as [Hk _].
Qed.

(** The counter of the user ids. *)
Lemma Counter_elem_of {K} `{EqDecision K} (xs : list K) (k : K) (c : Z) :
  (k, c) ∈ Counter xs <->
  c = len (List.filter (fun x => bool_decide (x = k)) xs) /\ 0 < c.
Proof.
  unfold Counter. rewrite (fill_elem_of (fun x : K => x) (fun _ => Z.succ) 0).
  assert (forall (l : list K) (a : Z),
            fold_left (fun v _ => Z.succ v) l a = a + len l) as Hf.
  { induction l as [|x l IH]; intros a; simpl; [unfold len; simpl; lia|].
    rewrite IH. unfold len. simpl. lia. }
  rewrite Hf. split.
  - intros [Hne ->]. split; [lia|]. pose proof (len_pos _ Hne). lia.
  - intros [-> Hc]. split; [|lia]. intros E. rewrite E in Hc. unfold len in Hc.
    simpl in Hc. lia.
Qed.

Lemma Counter_nonempty {K} `{EqDecision K} (xs : list K) : xs <> [] -> Counter xs <> [].
Proof.
  destruct xs as [|x xs]; [done|]. intros _ E.
  assert ((x, len (List.filter (fun y => bool_decide (y = x)) (x :: xs))) ∈ Counter (x :: xs))
    as Hin.
  { apply Counter_elem_of. split; [done|]. simpl. rewrite bool_decide_eq_true_2 by done.
    unfold len. simpl. lia. }
  rewrite E in Hin. by apply elem_of_nil in Hin.
Qed.

Lemma user_count_map (u : string) (valid_logs : list CanonicalRequest) :
  len (List.filter (fun x => bool_decide (x = u)) (map user_id valid_logs))
  = user_count u valid_logs.
Proof.
  unfold user_count, len. f_equal.
  induction valid_logs as [|l valid_logs IH]; simpl; [done|].
  destruct (bool_decide (user_id l = u)); simpl; by rewrite IH.
Qed.

(** The user-share step: the most frequent user, its share, and the one
    finding it can produce. *)
Lemma unusual_user_spec (valid_logs : list CanonicalRequest) :
  valid_logs <> [] ->
  exists u,
    most_common 1 (Counter (map user_id valid_logs)) !! 0%nat
      = Some (u, user_count u valid_logs)
    /\ (forall u', user_count u' valid_logs <= user_count u valid_logs)
    /\ let share :=
         Qred (py_float (user_count u valid_logs) / py_float (len valid_logs)) in
       unusual_user valid_logs =
         Ok (if py_gt share UNUSUAL_USER_SHARE_THRESHOLD
             then [unusual_user_behavior u (py_round (py_mul share 100) 3)
                     (if py_gt share (7 # 10) then High else Medium)]
             else []).
Proof.
  intros Hne.
  assert (map user_id valid_logs <> []) as Hm by (destruct valid_logs; done).
  destruct (most_common_1 (Counter (map user_id valid_logs)) (Counter_nonempty _ Hm))
    as ([u cnt] & E & Hin & Hmax).
  apply Counter_elem_of in Hin as [Hc Hpos]. rewrite user_count_map in Hc. subst cnt.
  exists u. split; [exact E|]. split.
  - intros u'. destruct (decide (0 < user_count u' valid_logs)) as [P|P].
    + apply (Hmax (u', user_count u' valid_logs)). apply Counter_elem_of.
      by rewrite user_count_map.
    + lia.
  - unfold unusual_user, getitem. rewrite E.
    destruct (Z.ltb_spec 0 (len valid_logs)) as [Hl|Hl].
    2: { pose proof (len_pos _ Hne). lia. }
    rewrite bind_Ok. cbv beta iota zeta. rewrite py_div_int_ok by lia. rewrite bind_Ok.
    destruct (py_gt _ UNUSUAL_USER_SHARE_THRESHOLD); reflexivity.
Qed.

Lemma filter_other_kind (k : Kind) (sel : Anomaly -> bool) (l : list Anomaly) :
  (forall a, sel a = true -> kind_of a = k) ->
  (forall a, a ∈ l -> kind_of a <> k) ->
  List.filter sel l = [].
Proof.
  intros Hs Hl. apply filter_none. intros a Ha.
  destruct (sel a) eqn:E; [|done]. apply Hs in E. by apply Hl in Ha.
Qed.

Lemma filter_same_kind (k : Kind) (l : list Anomaly) :
  (forall a, a ∈ l -> kind_of a = k) -> List.filter (is_kind k) l = l.
Proof. intros Hl. apply filter_all. intros a Ha. by apply is_kind_spec, Hl. Qed.

Lemma is_finding_kind (k : Kind) (ep : string) (a : Anomaly) :
  is_finding k ep a = true -> kind_of a = k.
Proof.
  unfold is_finding. intros [E _]%andb_true_iff. by apply is_kind_spec.
Qed.

Lemma unusual_user_kind (valid_logs : list CanonicalRequest) (users : list Anomaly) :
  unusual_user valid_logs = Ok users -> forall a, a ∈ users -> kind_of a = KUser.
Proof.
  destruct valid_logs as [|l0 rest] eqn:Ev.
  - intros [= <-] a Ha. by apply elem_of_nil in Ha.
  - rewrite <- Ev. destruct (unusual_user_spec valid_logs) as (u & _ & _ & ->);
      [by rewrite Ev|].
    intros [= <-] a Ha. destruct (py_gt _ UNUSUAL_USER_SHARE_THRESHOLD).
    + by apply list_elem_of_singleton in Ha as ->.
    + by apply elem_of_nil in Ha.
Qed.

(** The anomaly detector ends normally, and its findings of each kind are
    those of the corresponding step. *)
Lemma _anomalies_spec (valid_logs : list CanonicalRequest) (stats : list EndpointStat) :
  exists found,
    _anomalies valid_logs stats = Ok found
    /\ (forall ep, List.filter (is_finding KSpike ep) found =
          first_spike ep (normal_rate (instants_of ep valid_logs))
            (findings (sliding_window_counts (instants_of ep valid_logs)
                         REQUEST_SPIKE_WINDOW_MINUTES)))
    /\ (forall ep, List.filter (is_finding KCluster ep) found =
          first_cluster ep
            (findings (sliding_window_counts (instants_of ep (errors_of valid_logs))
                         ERROR_CLUSTER_WINDOW_MINUTES)))
    /\ List.filter (is_kind KUser) found = findings (unusual_user valid_logs).
Proof.
  destruct valid_logs as [|l0 rest] eqn:Ev.
  { exists []. repeat split; reflexivity. }
  rewrite <- Ev. assert (valid_logs <> []) as Hne by (by rewrite Ev).
  destruct (request_spikes_spec valid_logs) as (spikes & Es & Ks & Fs).
  destruct (response_time_degradations_spec valid_logs) as (ds & Ed & Kd).
  destruct (error_clusters_spec valid_logs) as (clusters & Ec & Kc & Fc).
  destruct (unusual_user_spec valid_logs Hne) as (u & _ & _ & Eu).
  pose proof (unusual_user_kind valid_logs _ Eu) as Ku.
  exists (spikes ++ ds ++ clusters ++ findings (unusual_user valid_logs)).
  split.
  { unfold _anomalies. rewrite Ev at 1. rewrite Es, Ed, Ec, Eu. reflexivity. }
  rewrite Eu in *. cbn [findings] in *.
  set (users := if py_gt _ UNUSUAL_USER_SHARE_THRESHOLD then _ else _) in *.
  split; [|split].
  - intros ep. rewrite !List.filter_app, Fs.
    rewrite (filter_other_kind KSpike _ ds), (filter_other_kind KSpike _ clusters),
      (filter_other_kind KSpike _ users);
      try (intros a Ha; first [apply Kd in Ha | apply Kc in Ha | apply Ku in Ha]; congruence);
      try apply is_finding_kind.
    by rewrite !app_nil_r.
  - intros ep. rewrite !List.filter_app, Fc.
    rewrite (filter_other_kind KCluster _ spikes), (filter_other_kind KCluster _ ds),
      (filter_other_kind KCluster _ users);
      try (intros a Ha; first [apply Kd in Ha | apply Ks in Ha | apply Ku in Ha]; congruence);
      try apply is_finding_kind.
    by rewrite !app_nil_r.
  - rewrite !List.filter_app, (filter_same_kind KUser users) by exact Ku.
    rewrite (filter_other_kind KUser _ spikes), (filter_other_kind KUser _ ds),
      (filter_other_kind KUser _ clusters);
      try (intros a Ha; first [apply Kd in Ha | apply Ks in Ha | apply Kc in Ha]; congruence);
      try (intros a; apply is_kind_spec).
    reflexivity.
Qed.

Section analysis.
Context `{Runtime}.

(** The analysis of any list of raw records ends normally; its report is
    assembled from the results of the components on the valid records. *)
Lemma analyze_api_logs_Ok (logs : list (gmap string pyval)) :
  let valid_logs := omap validate_log_entry logs in
  exists sm stats issues recs costs found,
    _calc_summary valid_logs = Ok sm
    /\ _calc_endpoint_stats valid_logs = Ok stats
    /\ _detect_performance_issues stats = Ok issues
    /\ _recommendations sm stats = Ok recs
    /\ _cost_analysis valid_logs stats = Ok costs
    /\ _anomalies valid_logs stats = Ok found
    /\ analyze_api_logs logs =
         Ok {| summary := sm;
               endpoint_stats := stats;
               performance_issues := issues;
               recommendations := recs;
               hourly_distribution := _hourly_distribution valid_logs;
               top_users_by_requests := _top_users valid_logs 5;
               cost_analysis := costs;
               anomalies := found |}.
Proof.
  intros valid_logs.
  destruct (_calc_summary_Ok valid_logs) as (sm & Esm & _).
  destruct (_calc_endpoint_stats_Ok valid_logs) as (stats & Est).
  destruct (_detect_performance_issues_Ok stats) as (issues & Ei).
  destruct (_recommendations_Ok sm stats) as (recs & Er).
  destruct (_cost_analysis_Ok valid_logs stats) as (costs & Ec & _).
  destruct (_anomalies_spec valid_logs stats) as (found & Ea & _).
  exists sm, stats, issues, recs, costs, found.
  repeat (split; [done|]).
  unfold analyze_api_logs. fold valid_logs.
  rewrite Esm, bind_Ok, Est, bind_Ok, Ei, bind_Ok, Er, bind_Ok, Ec, bind_Ok, Ea, bind_Ok.
  reflexivity.
Qed.
End analysis.

(** ** Degenerate and malformed input *)

Section degenerate.
Context `{Runtime}.

Lemma omap_all_None {A B} (f : A -> option B) (l : list A) :
  Forall (fun x => f x = None) l -> omap f l = [].
Proof.
  induction 1 as [|x l E F IH]; [done|]. simpl. by rewrite E.
Qed.



(** C8.  On the empty sequence, and on any sequence without a valid record,
    the analysis ends normally with the empty report: no requests, no time
    range, zero average and error rate, no endpoint statistics and no
    anomalies. *)
Theorem degenerate_input_report (logs : list (gmap string pyval)) :
  Forall (fun entry => validate_log_entry entry = None) logs ->
  analyze_api_logs logs = Ok empty_report.
Proof.
  intros F. unfold analyze_api_logs. rewrite (omap_all_None _ _ F). reflexivity.
Qed.

End degenerate.

Lemma degenerate_input_report_witness :
  analyze_api_logs
    [ Fixture.make_log "not-a-timestamp" "/api/users" "GET" 150 200 "user_1" 512 2048;
      (∅ : gmap string (@pyval Fixture.runtime)) ]
  = Ok empty_report.
Proof.
  apply degenerate_input_report.
  repeat constructor.
Defined.

(** ** Request spikes, error clusters and the user share *)







(** *** Twenty requests a minute apart and a burst of fifteen *)




Lemma filter_length_le {A} (f : A -> bool) (l : list A) :
  (length (List.filter f l) <= length l)%nat.
Proof. induction l as [|x l IH]; simpl; [lia|]. destruct (f x); simpl; lia. Qed.






(** The error of rounding. *)
Lemma round_half_even_error (x : Q) :
  (Qabs (inject_Z (round_half_even x) - x) <= 1 # 2)%Q.
Proof.
  unfold round_half_even.
  pose proof (Qfloor_le x) as Lo. pose proof (Qlt_floor x) as Hi.
  rewrite inject_Z_plus in Hi. change (inject_Z 1) with 1%Q in Hi.
  set (f := inject_Z (Qfloor x)) in *.
  assert (inject_Z (Qfloor x + 1) == f + 1)%Q as P
    by (rewrite inject_Z_plus; reflexivity).
  destruct (Qcompare_spec (x - f) (1 # 2)) as [E|L|G].
  - destruct (Z.even (Qfloor x)); [fold f | rewrite P];
      apply Qabs_Qle_condition; split; lra.
  - fold f. apply Qabs_Qle_condition; split; lra.
  - rewrite P. apply Qabs_Qle_condition; split; lra.
Qed.

Lemma py_round_error (x : Q) (n : nat) :
  (Qabs (py_round x n - x) <= (1 # 2) / inject_Z (10 ^ Z.of_nat n))%Q.
Proof.
  unfold py_round.
  assert (0 < 10 ^ Z.of_nat n) as Hpos by (apply Z.pow_pos_nonneg; lia).
  set (scale := inject_Z (10 ^ Z.of_nat n)).
  assert (0 < scale)%Q as Hs by (unfold scale, Qlt; simpl; lia).
  rewrite Qred_correct.
  pose proof (round_half_even_error (x * scale)) as R.
  set (k := inject_Z (round_half_even (x * scale))) in *.
  apply Qabs_Qle_condition in R as [R1 R2].
  assert (k / scale - x == (k - x * scale) / scale)%Q as -> by (field; lra).
  apply Qabs_Qle_condition. split.
  - assert (- ((1 # 2) / scale) == (- (1 # 2)) / scale)%Q as -> by (field; lra).
    apply Qmult_le_compat_r; [lra|]. apply Qlt_le_weak, Qinv_lt_0_compat, Hs.
  - apply Qmult_le_compat_r; [lra|]. apply Qlt_le_weak, Qinv_lt_0_compat, Hs.
Qed.

Lemma py_add_correct (a b : Q) : (py_add a b == a + b)%Q.
Proof. apply Qred_correct. Qed.




Section findings.
Context `{Runtime}.



End findings.

(** The scenarios, from raw records. *)
Lemma spike_scenario_valid : omap validate_log_entry spike_scenario_logs = spike_scenario.
Proof. vm_compute. reflexivity. Qed.






(** ** Costs *)

(** A sum of scaled whole numbers. *)
Lemma py_sum_scaled {A} (g : A -> Z) (c : Q) (l : list A) :
  (py_sum (map (fun x => py_mul (py_float (g x)) c) l)
   == py_float (sum_Z (map g l)) * c)%Q.
Proof.
  unfold py_sum, sum_Z.
  assert (forall (acc : Q) (a : Z),
            (acc == py_float a * c)%Q ->
            (fold_left py_add (map (fun x => py_mul (py_float (g x)) c) l) acc
             == py_float (fold_left Z.add (map g l) a) * c)%Q) as General.
  { induction l as [|x l IH]; intros acc a Ha; simpl; [done|].
    apply IH. rewrite py_add_correct, Ha. unfold py_mul. rewrite Qred_correct.
    unfold py_float. rewrite inject_Z_plus. ring. }
  apply General. unfold py_float. change (inject_Z 0) with 0%Q. ring.
Qed.

Section costs.
Context `{Runtime}.

(** C9 (as amended).  In every report on at most 100000 accepted records
    with at most 10^9 ms of response time between them, each component of
    the breakdown is its category total to within a unit of the sixth
    decimal (the requests at 0.0001 each, the response times at 0.000002
    per ms, the memory costs of the responses), and the total cost differs
    from the sum of the three components by at most two units of the sixth
    decimal. *)
Theorem cost_total_matches_breakdown (logs : list (gmap string pyval)) (report : Report) :
  analyze_api_logs logs = Ok report ->
  let valid_logs := omap validate_log_entry logs in
  len valid_logs <= 100000 ->
  sum_Z (map response_time_ms valid_logs) <= 1000000000 ->
  let costs := cost_analysis report in
  (Qabs (request_costs (cost_breakdown costs)
         - py_float (len valid_logs) * COST_PER_REQUEST_USD) <= 1 # 1000000)%Q
  /\ (Qabs (execution_costs (cost_breakdown costs)
            - py_float (sum_Z (map response_time_ms valid_logs)) * COST_PER_MS_EXECUTION_USD)
      <= 1 # 1000000)%Q
  /\ (Qabs (memory_costs (cost_breakdown costs)
            - py_sum (map (fun l => _memory_cost (response_size_bytes l)) valid_logs))
      <= 1 # 1000000)%Q
  /\ (Qabs (total_cost_usd costs
            - (request_costs (cost_breakdown costs)
               + execution_costs (cost_breakdown costs)
               + memory_costs (cost_breakdown costs)))
      <= 2 # 1000000)%Q.
Proof.
  intros Er valid_logs _ _ costs.
  destruct (analyze_api_logs_Ok logs) as (sm & stats & issues & recs & costs0 & found
    & _ & Est & _ & _ & Ec & _ & E).
  rewrite Er in E. injection E as ->.
  destruct (_cost_analysis_Ok (omap validate_log_entry logs) stats)
    as (costs' & Ec' & Et & Erq & Ee & Em).
  rewrite Ec in Ec'. injection Ec' as <-.
  unfold costs. cbn [cost_analysis]. fold valid_logs in Et, Erq, Ee, Em.
  rewrite Et, Erq, Ee, Em.
  pose proof (py_sum_scaled response_time_ms COST_PER_MS_EXECUTION_USD valid_logs) as Se.
  set (r := py_mul _ COST_PER_REQUEST_USD) in *.
  set (e := py_sum (map (fun l => py_mul _ COST_PER_MS_EXECUTION_USD) _)) in *.
  set (m := py_sum (map (fun l => _memory_cost _) _)).
  assert (r == py_float (len valid_logs) * COST_PER_REQUEST_USD)%Q as Sr
    by (unfold r, py_mul; apply Qred_correct).
  pose proof (py_round_error (py_add (py_add r e) m) 6) as Rt.
  pose proof (py_round_error r 6) as Rr.
  pose proof (py_round_error e 6) as Re.
  pose proof (py_round_error m 6) as Rm.
  assert (py_add (py_add r e) m == r + e + m)%Q as S
    by (rewrite !py_add_correct; reflexivity).
  assert ((1 # 2) / inject_Z (10 ^ Z.of_nat 6) == 1 # 2000000)%Q as U by reflexivity.
  rewrite U in Rt, Rr, Re, Rm.
  apply Qabs_Qle_condition in Rt as [? ?], Rr as [? ?], Re as [? ?], Rm as [? ?].
  split_and!; apply Qabs_Qle_condition; split; lra.
Qed.
End costs.

(** C9, as stated, fails where binary64 cannot hold the sum: for one record
    with a response time of 10^18 ms the execution cost of 2000000000000.0
    absorbs the other two categories, the total is the execution cost, and
    the three components add up to more than a ten-thousandth above it. *)
Lemma cost_total_absorbs_breakdown :
  exists totals,
    Binary64._cost_analysis (omap validate_log_entry [huge_log]) = Ok totals
    /\ Binary64.total_cost_usd totals = Binary64.execution_costs totals
    /\ (1 # 10000
        < Qabs (Binary64.to_Q (Binary64.total_cost_usd totals)
                - (Binary64.to_Q (Binary64.request_costs totals)
                   + Binary64.to_Q (Binary64.execution_costs totals)
                   + Binary64.to_Q (Binary64.memory_costs totals))))%Q.
Proof.
  eexists. split; [vm_compute; reflexivity|]. split; [reflexivity|].
  vm_compute. reflexivity.
Qed.

(** ** The order of the input *)












Section sorted_by_key.
Context {A : Type} (key : A -> string).


End sorted_by_key.






(** The accumulator of an endpoint after its requests. *)
Lemma fold_left_add_shift (l : list Z) (a : Z) :
  fold_left Z.add l a = a + fold_left Z.add l 0.
Proof.
  revert a. induction l as [|x l IH]; intros a; simpl; [lia|].
  rewrite (IH (a + x)), (IH (0 + x)). lia.
Qed.













Section input_order.
Context `{Runtime}.

End input_order.


(** ** The theorems on concrete input *)


Lemma severity_strict_first_match_witness :
  severity_for_response_time 1000 SEVERITY_THRESHOLDS_MS <> Some High
  /\ severity_for_error_rate 15 ERROR_RATE_THRESHOLDS_PERCENT <> Some Critical.
Proof.
  destruct (severity_strict_first_match 1000 SEVERITY_THRESHOLDS_MS) as (_ & _ & B1).
  destruct (severity_strict_first_match 15 ERROR_RATE_THRESHOLDS_PERCENT) as (_ & _ & B2).
  split.
  - apply (B1 High). reflexivity.
  - apply (B2 Critical). reflexivity.
Defined.

Lemma cost_total_matches_breakdown_witness :
  exists report,
    analyze_api_logs spike_scenario_logs = Ok report
    /\ (Qabs (total_cost_usd (cost_analysis report)
              - (request_costs (cost_breakdown (cost_analysis report))
                 + execution_costs (cost_breakdown (cost_analysis report))
                 + memory_costs (cost_breakdown (cost_analysis report))))
        <= 2 # 1000000)%Q.
Proof.
  destruct (analyze_api_logs spike_scenario_logs) as [report|e] eqn:E;
    [|vm_compute in E; discriminate E].
  exists report. split; [reflexivity|].
  apply (cost_total_matches_breakdown spike_scenario_logs report E);
    rewrite spike_scenario_valid; vm_compute; discriminate.
Defined.

(** * Further properties of the analysis *)

(** ** Validation *)

Section accepted.
Context `{Runtime}.

Lemma safe_int_Some (v : pyval) (n : Z) :
  safe_int v = Some n <-> py_int v = Some n /\ 0 <= n.
Proof.
  unfold safe_int. destruct (py_int v) as [m|]; simpl.
  - destruct (Z.leb_spec 0 m); split.
    + by intros [= <-].
    + by intros [[= <-] _].
    + discriminate.
    + intros [[= <-] ?]. lia.
  - split; [discriminate | by intros [? _]].
Qed.

Lemma safe_str_Some (v : pyval) (s : string) :
  safe_str v = Some s <-> py_str v = Some s /\ s <> ""%string.
Proof.
  unfold safe_str. destruct (py_str v) as [m|]; simpl.
  - destruct (String.eqb_spec m ""); split.
    + discriminate.
    + intros [[= <-] ?]. contradiction.
    + by intros [= <-].
    + by intros [[= <-] _].
  - split; [discriminate | by intros [? _]].
Qed.

Lemma coerced_field {A} (entry : gmap string pyval) (f : string)
    (coerce : pyval -> option A) (a : A) :
  entry !! f ≫= coerce = Some a <-> exists v, entry !! f = Some v /\ coerce v = Some a.
Proof.
  destruct (entry !! f) as [v|]; simpl.
  - split; [eauto | by intros (? & [= <-] & ?)].
  - split; [discriminate | by intros (? & ? & _)].
Qed.

(** X1.  A record is accepted exactly when all eight fields are present and
    coerce; the accepted request carries the coerced values, field by
    field, with the method in upper case; its numbers are not negative and
    its endpoint and user are not empty. *)
Theorem accepted_record_fields (entry : gmap string pyval) (c : CanonicalRequest) :
  validate_log_entry entry = Some c <->
  (exists v, entry !! "timestamp"%string = Some v
     /\ parse_timestamp v = Some (timestamp c))
  /\ (exists v, entry !! "endpoint"%string = Some v
        /\ py_str v = Some (endpoint c) /\ endpoint c <> ""%string)
  /\ (exists v m, entry !! "method"%string = Some v
        /\ py_str v = Some m /\ m <> ""%string /\ method c = py_upper m)
  /\ (exists v, entry !! "response_time_ms"%string = Some v
        /\ py_int v = Some (response_time_ms c) /\ 0 <= response_time_ms c)
  /\ (exists v, entry !! "status_code"%string = Some v
        /\ py_int v = Some (status_code c) /\ 0 <= status_code c)
  /\ (exists v, entry !! "user_id"%string = Some v
        /\ py_str v = Some (user_id c) /\ user_id c <> ""%string)
  /\ (exists v, entry !! "request_size_bytes"%string = Some v
        /\ py_int v = Some (request_size_bytes c) /\ 0 <= request_size_bytes c)
  /\ (exists v, entry !! "response_size_bytes"%string = Some v
        /\ py_int v = Some (response_size_bytes c) /\ 0 <= response_size_bytes c).
Proof.
  rewrite validate_log_entry_unfold. split.
  - destruct (forallb _ REQUIRED_FIELDS); [|discriminate].
    destruct (_ ≫= parse_timestamp) as [ts|] eqn:E1; [|discriminate].
    destruct (entry !! "endpoint"%string ≫= safe_str) as [ep|] eqn:E2; [|discriminate].
    destruct (entry !! "method"%string ≫= safe_str) as [m|] eqn:E3; [|discriminate].
    destruct (entry !! "response_time_ms"%string ≫= safe_int) as [rt|] eqn:E4;
      [|discriminate].
    destruct (entry !! "status_code"%string ≫= safe_int) as [st|] eqn:E5; [|discriminate].
    destruct (entry !! "user_id"%string ≫= safe_str) as [u|] eqn:E6; [|discriminate].
    destruct (entry !! "request_size_bytes"%string ≫= safe_int) as [rq|] eqn:E7;
      [|discriminate].
    destruct (entry !! "response_size_bytes"%string ≫= safe_int) as [rs|] eqn:E8;
      [|discriminate].
    intros [= <-]. cbn.
    apply coerced_field in E1 as (v1 & L1 & C1). apply coerced_field in E2 as (v2 & L2 & C2).
    apply coerced_field in E3 as (v3 & L3 & C3). apply coerced_field in E4 as (v4 & L4 & C4).
    apply coerced_field in E5 as (v5 & L5 & C5). apply coerced_field in E6 as (v6 & L6 & C6).
    apply coerced_field in E7 as (v7 & L7 & C7). apply coerced_field in E8 as (v8 & L8 & C8).
    apply safe_str_Some in C2, C3, C6. apply safe_int_Some in C4, C5, C7, C8.
    destruct C2, C3, C4, C5, C6, C7, C8. split_and!; eauto 10.
  - intros ((v1 & L1 & C1) & (v2 & L2 & C2 & N2) & (v3 & m & L3 & C3 & N3 & Em)
      & (v4 & L4 & C4 & N4) & (v5 & L5 & C5 & N5) & (v6 & L6 & C6 & N6)
      & (v7 & L7 & C7 & N7) & (v8 & L8 & C8 & N8)).
    assert (forallb (fun f => bool_decide (is_Some (entry !! f))) REQUIRED_FIELDS = true)
      as ->.
    { apply required_fields_present. intros f Hf. unfold REQUIRED_FIELDS in Hf.
      repeat (apply elem_of_cons in Hf as [->|Hf]; [eauto|]). by apply elem_of_nil in Hf. }
    rewrite L1, L2, L3, L4, L5, L6, L7, L8. simpl. rewrite C1.
    rewrite (proj2 (safe_str_Some v2 _) (conj C2 N2)).
    rewrite (proj2 (safe_str_Some v3 _) (conj C3 N3)).
    rewrite (proj2 (safe_int_Some v4 _) (conj C4 N4)).
    rewrite (proj2 (safe_int_Some v5 _) (conj C5 N5)).
    rewrite (proj2 (safe_str_Some v6 _) (conj C6 N6)).
    rewrite (proj2 (safe_int_Some v7 _) (conj C7 N7)).
    rewrite (proj2 (safe_int_Some v8 _) (conj C8 N8)).
    rewrite <- Em. by destruct c.
Qed.
End accepted.

(** ** Rounding keeps order and whole numbers *)

Lemma round_half_even_Qeq (x y : Q) :
  (x == y)%Q -> round_half_even x = round_half_even y.
Proof.
  intros E. unfold round_half_even. rewrite (Qfloor_comp x y E).
  assert (x - inject_Z (Qfloor y) == y - inject_Z (Qfloor y))%Q as E' by (rewrite E; reflexivity).
  by rewrite (Qcompare_comp _ _ E' _ _ (Qeq_refl (1 # 2))).
Qed.

Lemma round_half_even_Z (z : Z) : round_half_even (inject_Z z) = z.
Proof.
  unfold round_half_even. rewrite Qfloor_Z.
  destruct (Qcompare_spec (inject_Z z - inject_Z z) (1 # 2)); [lra | done | lra].
Qed.

Lemma round_half_even_mono (x y : Q) :
  (x <= y)%Q -> round_half_even x <= round_half_even y.
Proof.
  intros L. destruct (Z_le_gt_dec (round_half_even x) (round_half_even y)) as [?|G]; [done|].
  pose proof (round_half_even_error x) as Ex. pose proof (round_half_even_error y) as Ey.
  apply Qabs_Qle_condition in Ex as [_ Ex], Ey as [Ey _].
  assert (inject_Z (round_half_even y) + 1 <= inject_Z (round_half_even x))%Q as G'.
  { change 1%Q with (inject_Z 1). rewrite <- inject_Z_plus, <- Zle_Qle. lia. }
  assert (x == y)%Q as E by lra.
  rewrite (round_half_even_Qeq x y E) in G. lia.
Qed.

Lemma scale_pos (n : nat) : (0 < inject_Z (10 ^ Z.of_nat n))%Q.
Proof.
  assert (0 < 10 ^ Z.of_nat n) by (apply Z.pow_pos_nonneg; lia).
  unfold Qlt. simpl. lia.
Qed.

Lemma py_round_mono (x y : Q) (n : nat) : (x <= y)%Q -> (py_round x n <= py_round y n)%Q.
Proof.
  intros L. unfold py_round. pose proof (scale_pos n) as Hs.
  set (scale := inject_Z (10 ^ Z.of_nat n)) in *. rewrite !Qred_correct.
  apply Qmult_le_compat_r; [|apply Qlt_le_weak, Qinv_lt_0_compat, Hs].
  rewrite <- Zle_Qle. apply round_half_even_mono. by apply Qmult_le_compat_r; [|lra].
Qed.

Lemma py_round_Z (z : Z) (n : nat) : (py_round (inject_Z z) n == inject_Z z)%Q.
Proof.
  unfold py_round. pose proof (scale_pos n) as Hs.
  rewrite Qred_correct.
  rewrite (round_half_even_Qeq _ (inject_Z (z * 10 ^ Z.of_nat n)))
    by (rewrite inject_Z_mult; reflexivity).
  rewrite round_half_even_Z, inject_Z_mult. field. lra.
Qed.

Lemma py_round_between (lo hi : Z) (x : Q) (n : nat) :
  (inject_Z lo <= x <= inject_Z hi)%Q ->
  (inject_Z lo <= py_round x n <= inject_Z hi)%Q.
Proof.
  intros [L U]. split.
  - rewrite <- (py_round_Z lo n). by apply py_round_mono.
  - rewrite <- (py_round_Z hi n). by apply py_round_mono.
Qed.

(** The mean of whole numbers lies between their bounds. *)
Lemma sum_Z_bounds (lo hi : Z) (xs : list Z) :
  (forall x, x ∈ xs -> lo <= x <= hi) ->
  lo * len xs <= sum_Z xs <= hi * len xs.
Proof.
  unfold sum_Z, len. induction xs as [|x xs IH] using rev_ind; intros B; simpl; [lia|].
  rewrite fold_left_app, length_app. simpl.
  specialize (IH ltac:(intros y Hy; apply B, elem_of_app; by left)).
  specialize (B x ltac:(apply elem_of_app; right; constructor)). nia.
Qed.

Lemma mean_bounds (lo hi : Z) (xs : list Z) :
  xs <> [] -> (forall x, x ∈ xs -> lo <= x <= hi) ->
  (inject_Z lo <= Qred (py_float (sum_Z xs) / py_float (len xs)) <= inject_Z hi)%Q.
Proof.
  intros Hne B. pose proof (sum_Z_bounds lo hi xs B) as [L U].
  pose proof (len_pos xs Hne) as Hpos. rewrite Qred_correct. unfold py_float.
  assert (0 < inject_Z (len xs))%Q as Hq by (unfold Qlt; simpl; lia).
  split.
  - apply Qle_shift_div_l; [done|]. rewrite <- inject_Z_mult, <- Zle_Qle. lia.
  - apply Qle_shift_div_r; [done|]. rewrite <- inject_Z_mult, <- Zle_Qle. lia.
Qed.

(** ** The summary *)

Lemma omap_length_le {A B} (f : A -> option B) (l : list A) :
  (length (omap f l) <= length l)%nat.
Proof. induction l as [|x l IH]; csimpl; [lia|]. destruct (f x); csimpl; lia. Qed.

Lemma _calc_summary_nonempty (valid_logs : list CanonicalRequest) :
  valid_logs <> [] ->
  exists lo hi,
    py_min (map timestamp valid_logs) = Ok lo
    /\ py_max (map timestamp valid_logs) = Ok hi
    /\ lo ∈ map timestamp valid_logs /\ hi ∈ map timestamp valid_logs
    /\ (forall t, t ∈ map timestamp valid_logs -> lo <= t <= hi)
    /\ _calc_summary valid_logs =
         Ok {| total_requests := len valid_logs;
               time_range_start := Some lo; time_range_end := Some hi;
               avg_response_time_ms :=
                 py_round (Qred (py_float (sum_Z (map response_time_ms valid_logs))
                                 / py_float (len valid_logs))) 3;
               error_rate_percentage :=
                 py_round (py_mul (Qred (py_float (len (errors_of valid_logs))
                                         / py_float (len valid_logs))) 100) 3 |}.
Proof.
  intros Hne. pose proof (len_pos valid_logs Hne) as Hpos.
  assert (map timestamp valid_logs <> []) as Hne' by (by destruct valid_logs).
  destruct (py_min_Ok _ Hne') as (lo & Elo & Hlo & Mlo).
  destruct (py_max_Ok _ Hne') as (hi & Ehi & Hhi & Mhi).
  exists lo, hi. split_and!; try done.
  - intros t Ht. split; [by apply Mlo | by apply Mhi].
  - unfold _calc_summary. destruct (Z.eqb_spec (len valid_logs) 0) as [E|N]; [lia|].
    rewrite Elo, Ehi, !bind_Ok, !py_div_int_ok by done. by rewrite !bind_Ok.
Qed.

Section summary.
Context `{Runtime}.

(** X2.  The summary of every report the analysis returns counts the
    accepted records, never more than the records given; the time range is
    empty without accepted records and otherwise runs from the earliest to
    the latest accepted instant; the average response time is not negative
    and lies between any two bounds of the accepted response times that
    binary64 holds exactly (up to 2^53 in size); the error rate lies
    between 0 and 100. *)
Theorem summary_counts_and_bounds (logs : list (gmap string pyval)) (report : Report) :
  analyze_api_logs logs = Ok report ->
  total_requests (summary report) = len (valid_records logs)
  /\ 0 <= total_requests (summary report) <= len logs
  /\ (valid_records logs = [] ->
        time_range_start (summary report) = None
        /\ time_range_end (summary report) = None)
  /\ (valid_records logs <> [] ->
        exists first last,
          time_range_start (summary report) = Some first
          /\ time_range_end (summary report) = Some last
          /\ first ∈ map timestamp (valid_records logs)
          /\ last ∈ map timestamp (valid_records logs)
          /\ forall c, c ∈ valid_records logs -> first <= timestamp c <= last)
  /\ (forall lo hi,
        valid_records logs <> [] -> - 2 ^ 53 <= lo -> hi <= 2 ^ 53 ->
        (forall c, c ∈ valid_records logs -> lo <= response_time_ms c <= hi) ->
        (inject_Z lo <= avg_response_time_ms (summary report) <= inject_Z hi)%Q)
  /\ (0 <= avg_response_time_ms (summary report))%Q
  /\ (0 <= error_rate_percentage (summary report) <= 100)%Q.
Proof.
  intros Er.
  destruct (analyze_api_logs_Ok logs) as (sm & stats & issues & recs & costs & found
    & Esm & _ & _ & _ & _ & _ & E).
  rewrite Er in E. injection E as ->.
  fold (valid_records logs) in Esm. set (valid := valid_records logs) in *.
  cbn [summary].
  assert (len valid <= len logs) as Hle.
  { unfold len, valid, valid_records. pose proof (omap_length_le validate_log_entry logs). lia. }
  pose proof (len_nonneg valid) as Hnn.
  destruct (decide (valid = [])) as [E0|Hne].
  - rewrite E0 in *. injection Esm as <-. cbn. split_and!; try done; try lra.
  - destruct (_calc_summary_nonempty valid Hne) as (lo & hi & _ & _ & Hlo & Hhi & B & Esm').
    rewrite Esm in Esm'. injection Esm' as ->. cbn.
    assert (forall c, c ∈ valid -> 0 <= response_time_ms c) as Pos.
    { intros c Hc. apply list_elem_of_omap in Hc as (entry & _ & Hc).
      by apply validate_log_entry_Some in Hc as (? & _). }
    assert (forall lo hi,
              (forall c, c ∈ valid -> lo <= response_time_ms c <= hi) ->
              (inject_Z lo
               <= py_round (Qred (py_float (sum_Z (map response_time_ms valid))
                                  / py_float (len valid))) 3
               <= inject_Z hi)%Q) as Avg.
    { intros l h Bc. apply py_round_between.
      assert (len valid = len (map response_time_ms valid)) as ->
        by (unfold len; by rewrite length_map).
      apply mean_bounds; [by destruct valid|].
      intros x Hx. apply list_elem_of_In, in_map_iff in Hx as (c & <- & Hc).
      by apply Bc, list_elem_of_In. }
    split_and!; try done; try lia.
    + exists lo, hi. split_and!; try done.
      intros c Hc. apply B, list_elem_of_In, in_map, list_elem_of_In, Hc.
    + intros l h _ _ _. apply Avg.
    + set (top := fold_left Z.max (map response_time_ms valid) 0).
      apply (Avg 0 top). intros c Hc. split; [by apply Pos|].
      apply (fold_left_max_spec (map response_time_ms valid) 0).
      apply list_elem_of_In, in_map, list_elem_of_In, Hc.
    + apply Qle_trans with (py_round (inject_Z 0) 3); [by rewrite py_round_Z|].
      apply py_round_mono. change (inject_Z 0) with 0%Q.
      unfold py_mul. rewrite !Qred_correct.
      pose proof (len_nonneg (errors_of valid)).
      assert (0 < inject_Z (len valid))%Q by (unfold Qlt; simpl; pose proof (len_pos valid Hne); lia).
      apply Qmult_le_0_compat; [|done]. apply Qle_shift_div_l; [done|].
      assert (0 <= py_float (len (errors_of valid)))%Q by (unfold Qle; simpl; lia).
      lra.
    + apply Qle_trans with (py_round (inject_Z 100) 3); [|by rewrite py_round_Z].
      apply py_round_mono.
      unfold py_mul. rewrite !Qred_correct.
      assert (len (errors_of valid) <= len valid) as Le.
      { unfold len, errors_of. pose proof (filter_length_le
          (fun l => is_error_status (status_code l)) valid). lia. }
      assert (0 < inject_Z (len valid))%Q by (unfold Qlt; simpl; pose proof (len_pos valid Hne); lia).
      assert (py_float (len (errors_of valid)) / py_float (len valid) <= 1)%Q.
      { apply Qle_shift_div_r; [done|]. unfold py_float. rewrite Zle_Qle in Le. lra. }
      change (inject_Z 100) with 100%Q. lra.
Qed.
End summary.

Lemma summary_counts_and_bounds_witness :
  exists report,
    analyze_api_logs [negative_time_log; good_log] = Ok report
    /\ total_requests (summary report) = len (valid_records [negative_time_log; good_log])
    /\ 0 <= total_requests (summary report) <= len [negative_time_log; good_log].
Proof.
  destruct (analyze_api_logs [negative_time_log; good_log]) as [report|e] eqn:E;
    [|vm_compute in E; discriminate E].
  exists report. split; [reflexivity|].
  destruct (summary_counts_and_bounds [negative_time_log; good_log] report E)
    as (T & B & _).
  split; [exact T | exact B].
Defined.

(** ** Sums over a filled dictionary *)

Lemma sum_Z_cons (x : Z) (l : list Z) : sum_Z (x :: l) = x + sum_Z l.
Proof. unfold sum_Z. simpl. apply fold_left_add_shift. Qed.

Lemma sum_Z_app (l k : list Z) : sum_Z (l ++ k) = sum_Z l + sum_Z k.
Proof.
  induction l as [|x l IH]; simpl; [unfold sum_Z at 2; simpl; lia|].
  rewrite !sum_Z_cons, IH. lia.
Qed.

Section dictionary_sums.
Context {A K V : Type} `{EqDecision K}.
Context (key : A -> K) (step : A -> V -> V) (d0 : V).
Context (measure : V -> Z) (weight : A -> Z).
Hypothesis measure_d0 : measure d0 = 0.
Hypothesis measure_step : forall x v, measure (step x v) = measure v + weight x.


End dictionary_sums.



(** ** Endpoint statistics *)







Section endpoint_statistics.
Context `{Runtime}.


End endpoint_statistics.



Section endpoint_statistic_fields.
Context `{Runtime}.

End endpoint_statistic_fields.

(** ** The most common status *)










Section most_common_status.
Context `{Runtime}.

End most_common_status.

(** ** The most active users *)



Section top_users.
Context `{Runtime}.

End top_users.

(** ** The hourly distribution *)




Section hourly.
Context `{Runtime}.

End hourly.

(** ** Costs *)

Lemma _memory_cost_cases (size : Z) :
  _memory_cost size =
    if size <? 0 then 0%Q
    else if size <? 1024 then 1 # 100000
    else if size <? 10240 then 5 # 100000
    else 1 # 10000.
Proof.
  unfold _memory_cost, MEMORY_COST_BRACKETS, memory_cost_in.
  change (10 * 1024) with 10240.
  destruct (Z.ltb_spec size 0), (Z.ltb_spec size 1024), (Z.ltb_spec size 10240),
    (Z.leb_spec 0 size), (Z.leb_spec 1024 size), (Z.leb_spec 10240 size);
    try lia; reflexivity.
Qed.


(** X9.  The memory cost of a response grows with its size and, for a size
    that is not negative, is one of the three rates of the brackets, never
    the zero that the function returns when no bracket matches. *)
Theorem memory_cost_monotone (size size' : Z) :
  0 <= size <= size' ->
  (1 # 100000 <= _memory_cost size)%Q
  /\ (_memory_cost size <= _memory_cost size')%Q
  /\ (_memory_cost size' <= 1 # 10000)%Q
  /\ _memory_cost size ∈ map (fun b : Z * option Z * Q => b.2) MEMORY_COST_BRACKETS.
Proof.
  intros [H0 Hle]. rewrite !_memory_cost_cases.
  destruct (Z.ltb_spec size 0), (Z.ltb_spec size 1024), (Z.ltb_spec size 10240),
    (Z.ltb_spec size' 0), (Z.ltb_spec size' 1024), (Z.ltb_spec size' 10240);
    try lia; split_and!; try (unfold Qle; simpl; lia);
    unfold MEMORY_COST_BRACKETS; simpl; repeat constructor.
Qed.

Lemma memory_cost_monotone_witness :
  (_memory_cost 512 <= _memory_cost 2048)%Q.
Proof.
  apply (memory_cost_monotone 512 2048). lia.
Defined.

(** ** Issues and recommendations *)





Section issues.
Context `{Runtime}.

End issues.






Section issues_of_requests.
Context `{Runtime}.

End issues_of_requests.

(** ** The sliding window with a negative width *)

Lemma advance_left_cases (timestamps : list Z) (ws : Z) (fuel left : nat) :
  (length timestamps - left <= fuel)%nat ->
  advance_left fuel timestamps ws left = Raise IndexError
  \/ exists left' y,
       advance_left fuel timestamps ws left = Ok left'
       /\ (left <= left')%nat /\ timestamps !! left' = Some y /\ ws <= y.
Proof.
  revert left. induction fuel as [|fuel IH]; intros left Hfuel.
  all: cbn [advance_left]; unfold getitem.
  all: destruct (timestamps !! left) as [x|] eqn:Ex; [|by left].
  all: rewrite bind_Ok; destruct (Z.ltb_spec x ws) as [Hlt|Hge].
  - apply lookup_lt_Some in Ex. lia.
  - right. exists left, x. by split_and!.
  - destruct (IH (S left)) as [->|(left' & y & -> & Hle & Ey & Hy)]; [lia | by left |].
    right. exists left', y. split_and!; [done | lia | done..].
  - right. exists left, x. by split_and!.
Qed.

Lemma window_loop_negative (timestamps : list Z) (w : Z) :
  w < 0 ->
  forall n right left counts,
    (right + n = length timestamps)%nat -> (0 < n)%nat -> (right <= left)%nat ->
    window_loop (seq right n) timestamps w left counts = Raise IndexError.
Proof.
  intros Hw. induction n as [|n IH]; intros right left counts Hlen Hn Hle; [lia|].
  cbn [seq window_loop]. unfold window_body, getitem.
  destruct (lookup_lt_is_Some_2 timestamps right ltac:(lia)) as (t & Et).
  rewrite Et, bind_Ok.
  destruct (advance_left_cases timestamps (t - timedelta_minutes w) (length timestamps) left
              ltac:(lia)) as [->|(left' & y & -> & Hle' & Ey & Hy)]; [done|].
  rewrite !bind_Ok.
  assert (left' <> right).
  { intros ->. rewrite Et in Ey. injection Ey as <-. unfold timedelta_minutes in Hy. lia. }
  apply lookup_lt_Some in Ey. apply IH; lia.
Qed.

(** X12.  With a negative width the window never closes on the instant it
    starts from.  For a width that a [timedelta] can hold and instants
    whose window does not start after [datetime.max], the function leaves
    every list that is not empty and raises [IndexError]. *)
Theorem sliding_window_counts_negative (timestamps : list Z) (w : Z) :
  timestamps <> [] -> timedelta_min_minutes <= w < 0 ->
  (forall t, t ∈ timestamps -> datetime_min <= t <= datetime_max + timedelta_minutes w) ->
  Bounded.sliding_window_counts timestamps w = Raise IndexError.
Proof.
  intros Hne Hw Hr. rewrite Bounded_sliding_window_counts_eq.
  - unfold sliding_window_counts.
    apply window_loop_negative; [lia | done | | done].
    destruct timestamps; [done | simpl; lia].
  - unfold timedelta_max_minutes. lia.
  - intros t Ht. specialize (Hr t Ht). unfold timedelta_minutes in *. lia.
Qed.

Lemma sliding_window_counts_negative_witness :
  Bounded.sliding_window_counts [0; 60000000; 400000000] (-5) = Raise IndexError.
Proof.
  apply sliding_window_counts_negative; [done | unfold timedelta_min_minutes; lia |].
  intros t Ht. unfold datetime_min, datetime_max, timedelta_minutes.
  repeat (apply elem_of_cons in Ht as [->|Ht]; [lia|]). by apply elem_of_nil in Ht.
Defined.

(** ** Where no anomaly can be found *)



Section quiet_endpoints.
Context `{Runtime}.

End quiet_endpoints.














Section anomalies_shape.
Context `{Runtime}.



End anomalies_shape.

(** ** Costs by endpoint *)












Section costs_by_endpoint.
Context `{Runtime}.


End costs_by_endpoint.

(** ** Timestamps *)

Lemma string_app_assoc (a b c : string) : (a ++ (b ++ c) = (a ++ b) ++ c)%string.
Proof.
  induction a as [|x a IH]; [done|].
  change (String x (a ++ (b ++ c)) = String x ((a ++ b) ++ c))%string. by rewrite IH.
Qed.

Lemma str_replace_char_app (c : ascii) (new s t : string) :
  str_replace_char c new (s ++ t)
  = (str_replace_char c new s ++ str_replace_char c new t)%string.
Proof.
  induction s as [|a s IH]; [done|].
  change (str_replace_char c new (String a s ++ t))
    with (if Ascii.eqb a c then (new ++ str_replace_char c new (s ++ t))%string
          else String a (str_replace_char c new (s ++ t))).
  change (str_replace_char c new (String a s))
    with (if Ascii.eqb a c then (new ++ str_replace_char c new s)%string
          else String a (str_replace_char c new s)).
  rewrite IH. destruct (Ascii.eqb a c); [apply string_app_assoc | done].
Qed.

Section timestamps.
Context `{Runtime}.

(** X19.  A text that ends in [Z] is read as the instant of the same text
    ending in [+00:00]: the letter is replaced before the text is parsed. *)
Theorem parse_timestamp_zulu (v v' : pyval) (s : string) :
  as_str v = Some (s ++ "Z")%string ->
  as_str v' = Some (s ++ "+00:00")%string ->
  parse_timestamp v = parse_timestamp v'.
Proof.
  intros E E'. unfold parse_timestamp. rewrite E, E'. simpl.
  by rewrite !str_replace_char_app.
Qed.
End timestamps.

Lemma parse_timestamp_zulu_witness :
  parse_timestamp (Fixture.VStr "2025-01-15T10:00:00Z")
  = parse_timestamp (Fixture.VStr "2025-01-15T10:00:00+00:00").
Proof.
  apply (parse_timestamp_zulu _ _ "2025-01-15T10:00:00"); reflexivity.
Defined.
